(** * The prediction endpoint of [model_server.py]

    A shallow embedding of the request pipeline of the server: bearer-token
    authorization ([verify_token]), the checks on the submitted note
    ([is_invisible] and the guards of [predict_endpoint]), truncation
    ([validate_content_length]), the call of the classifier and the
    normalisation of its score ([predict]), and best-effort recording
    ([record_result]).

    Python values are modelled structurally: a [str] is the list of its code
    points, a JSON document is a [pyval], an exception is an [exn].  Code
    that can raise returns a [result]; code with effects (the classifier, the
    record file, the error stream, reading the request body) runs in the
    monad [M] over an explicit [world]. *)

From Stdlib Require Import List ZArith NArith QArith Qabs Bool String Ascii.
From Stdlib Require Import DecimalString Lia.
Import ListNotations.
Close Scope Q_scope.
Local Open Scope Z_scope.
Set Warnings "-register-all".

(** ** Text *)

(** A character is a Unicode code point; a Python [str] is a sequence of
    them, so [len] counts code points, not bytes. *)
Definition char := N.
Definition pystr := list char.

(** The text of an ASCII literal of the source. *)
Definition of_ascii (s : string) : pystr :=
  map N_of_ascii (list_ascii_of_string s).

Fixpoint pystr_eqb (a b : pystr) : bool :=
  match a, b with
  | [], [] => true
  | x :: a', y :: b' => N.eqb x y && pystr_eqb a' b'
  | _, _ => false
  end.

(** The code points for which [str.isprintable] is false, as closed
    intervals: the Unicode categories "Other" and "Separator" with the
    exception of the ASCII space (CPython 3.11, Unicode 14.0.0). *)
Definition nonprintable_ranges : list (N * N) := [
  (0, 31); (127, 160); (173, 173); (888, 889); (896, 899); (907, 907);
  (909, 909); (930, 930); (1328, 1328); (1367, 1368); (1419, 1420);
  (1424, 1424); (1480, 1487); (1515, 1518); (1525, 1541); (1564, 1564);
  (1757, 1757); (1806, 1807); (1867, 1868); (1970, 1983); (2043, 2044);
  (2094, 2095); (2111, 2111); (2140, 2141); (2143, 2143); (2155, 2159);
  (2191, 2199); (2274, 2274); (2436, 2436); (2445, 2446); (2449, 2450);
  (2473, 2473); (2481, 2481); (2483, 2485); (2490, 2491); (2501, 2502);
  (2505, 2506); (2511, 2518); (2520, 2523); (2526, 2526); (2532, 2533);
  (2559, 2560); (2564, 2564); (2571, 2574); (2577, 2578); (2601, 2601);
  (2609, 2609); (2612, 2612); (2615, 2615); (2618, 2619); (2621, 2621);
  (2627, 2630); (2633, 2634); (2638, 2640); (2642, 2648); (2653, 2653);
  (2655, 2661); (2679, 2688); (2692, 2692); (2702, 2702); (2706, 2706);
  (2729, 2729); (2737, 2737); (2740, 2740); (2746, 2747); (2758, 2758);
  (2762, 2762); (2766, 2767); (2769, 2783); (2788, 2789); (2802, 2808);
  (2816, 2816); (2820, 2820); (2829, 2830); (2833, 2834); (2857, 2857);
  (2865, 2865); (2868, 2868); (2874, 2875); (2885, 2886); (2889, 2890);
  (2894, 2900); (2904, 2907); (2910, 2910); (2916, 2917); (2936, 2945);
  (2948, 2948); (2955, 2957); (2961, 2961); (2966, 2968); (2971, 2971);
  (2973, 2973); (2976, 2978); (2981, 2983); (2987, 2989); (3002, 3005);
  (3011, 3013); (3017, 3017); (3022, 3023); (3025, 3030); (3032, 3045);
  (3067, 3071); (3085, 3085); (3089, 3089); (3113, 3113); (3130, 3131);
  (3141, 3141); (3145, 3145); (3150, 3156); (3159, 3159); (3163, 3164);
  (3166, 3167); (3172, 3173); (3184, 3190); (3213, 3213); (3217, 3217);
  (3241, 3241); (3252, 3252); (3258, 3259); (3269, 3269); (3273, 3273);
  (3278, 3284); (3287, 3292); (3295, 3295); (3300, 3301); (3312, 3312);
  (3315, 3327); (3341, 3341); (3345, 3345); (3397, 3397); (3401, 3401);
  (3408, 3411); (3428, 3429); (3456, 3456); (3460, 3460); (3479, 3481);
  (3506, 3506); (3516, 3516); (3518, 3519); (3527, 3529); (3531, 3534);
  (3541, 3541); (3543, 3543); (3552, 3557); (3568, 3569); (3573, 3584);
  (3643, 3646); (3676, 3712); (3715, 3715); (3717, 3717); (3723, 3723);
  (3748, 3748); (3750, 3750); (3774, 3775); (3781, 3781); (3783, 3783);
  (3790, 3791); (3802, 3803); (3808, 3839); (3912, 3912); (3949, 3952);
  (3992, 3992); (4029, 4029); (4045, 4045); (4059, 4095); (4294, 4294);
  (4296, 4300); (4302, 4303); (4681, 4681); (4686, 4687); (4695, 4695);
  (4697, 4697); (4702, 4703); (4745, 4745); (4750, 4751); (4785, 4785);
  (4790, 4791); (4799, 4799); (4801, 4801); (4806, 4807); (4823, 4823);
  (4881, 4881); (4886, 4887); (4955, 4956); (4989, 4991); (5018, 5023);
  (5110, 5111); (5118, 5119); (5760, 5760); (5789, 5791); (5881, 5887);
  (5910, 5918); (5943, 5951); (5972, 5983); (5997, 5997); (6001, 6001);
  (6004, 6015); (6110, 6111); (6122, 6127); (6138, 6143); (6158, 6158);
  (6170, 6175); (6265, 6271); (6315, 6319); (6390, 6399); (6431, 6431);
  (6444, 6447); (6460, 6463); (6465, 6467); (6510, 6511); (6517, 6527);
  (6572, 6575); (6602, 6607); (6619, 6621); (6684, 6685); (6751, 6751);
  (6781, 6782); (6794, 6799); (6810, 6815); (6830, 6831); (6863, 6911);
  (6989, 6991); (7039, 7039); (7156, 7163); (7224, 7226); (7242, 7244);
  (7305, 7311); (7355, 7356); (7368, 7375); (7419, 7423); (7958, 7959);
  (7966, 7967); (8006, 8007); (8014, 8015); (8024, 8024); (8026, 8026);
  (8028, 8028); (8030, 8030); (8062, 8063); (8117, 8117); (8133, 8133);
  (8148, 8149); (8156, 8156); (8176, 8177); (8181, 8181); (8191, 8207);
  (8232, 8239); (8287, 8303); (8306, 8307); (8335, 8335); (8349, 8351);
  (8385, 8399); (8433, 8447); (8588, 8591); (9255, 9279); (9291, 9311);
  (11124, 11125); (11158, 11158); (11508, 11512); (11558, 11558);
  (11560, 11564); (11566, 11567); (11624, 11630); (11633, 11646);
  (11671, 11679); (11687, 11687); (11695, 11695); (11703, 11703);
  (11711, 11711); (11719, 11719); (11727, 11727); (11735, 11735);
  (11743, 11743); (11870, 11903); (11930, 11930); (12020, 12031);
  (12246, 12271); (12284, 12288); (12352, 12352); (12439, 12440);
  (12544, 12548); (12592, 12592); (12687, 12687); (12772, 12783);
  (12831, 12831); (42125, 42127); (42183, 42191); (42540, 42559);
  (42744, 42751); (42955, 42959); (42962, 42962); (42964, 42964);
  (42970, 42993); (43053, 43055); (43066, 43071); (43128, 43135);
  (43206, 43213); (43226, 43231); (43348, 43358); (43389, 43391);
  (43470, 43470); (43482, 43485); (43519, 43519); (43575, 43583);
  (43598, 43599); (43610, 43611); (43715, 43738); (43767, 43776);
  (43783, 43784); (43791, 43792); (43799, 43807); (43815, 43815);
  (43823, 43823); (43884, 43887); (44014, 44015); (44026, 44031);
  (55204, 55215); (55239, 55242); (55292, 63743); (64110, 64111);
  (64218, 64255); (64263, 64274); (64280, 64284); (64311, 64311);
  (64317, 64317); (64319, 64319); (64322, 64322); (64325, 64325);
  (64451, 64466); (64912, 64913); (64968, 64974); (64976, 65007);
  (65050, 65055); (65107, 65107); (65127, 65127); (65132, 65135);
  (65141, 65141); (65277, 65280); (65471, 65473); (65480, 65481);
  (65488, 65489); (65496, 65497); (65501, 65503); (65511, 65511);
  (65519, 65531); (65534, 65535); (65548, 65548); (65575, 65575);
  (65595, 65595); (65598, 65598); (65614, 65615); (65630, 65663);
  (65787, 65791); (65795, 65798); (65844, 65846); (65935, 65935);
  (65949, 65951); (65953, 65999); (66046, 66175); (66205, 66207);
  (66257, 66271); (66300, 66303); (66340, 66348); (66379, 66383);
  (66427, 66431); (66462, 66462); (66500, 66503); (66518, 66559);
  (66718, 66719); (66730, 66735); (66772, 66775); (66812, 66815);
  (66856, 66863); (66916, 66926); (66939, 66939); (66955, 66955);
  (66963, 66963); (66966, 66966); (66978, 66978); (66994, 66994);
  (67002, 67002); (67005, 67071); (67383, 67391); (67414, 67423);
  (67432, 67455); (67462, 67462); (67505, 67505); (67515, 67583);
  (67590, 67591); (67593, 67593); (67638, 67638); (67641, 67643);
  (67645, 67646); (67670, 67670); (67743, 67750); (67760, 67807);
  (67827, 67827); (67830, 67834); (67868, 67870); (67898, 67902);
  (67904, 67967); (68024, 68027); (68048, 68049); (68100, 68100);
  (68103, 68107); (68116, 68116); (68120, 68120); (68150, 68151);
  (68155, 68158); (68169, 68175); (68185, 68191); (68256, 68287);
  (68327, 68330); (68343, 68351); (68406, 68408); (68438, 68439);
  (68467, 68471); (68498, 68504); (68509, 68520); (68528, 68607);
  (68681, 68735); (68787, 68799); (68851, 68857); (68904, 68911);
  (68922, 69215); (69247, 69247); (69290, 69290); (69294, 69295);
  (69298, 69375); (69416, 69423); (69466, 69487); (69514, 69551);
  (69580, 69599); (69623, 69631); (69710, 69713); (69750, 69758);
  (69821, 69821); (69827, 69839); (69865, 69871); (69882, 69887);
  (69941, 69941); (69960, 69967); (70007, 70015); (70112, 70112);
  (70133, 70143); (70162, 70162); (70207, 70271); (70279, 70279);
  (70281, 70281); (70286, 70286); (70302, 70302); (70314, 70319);
  (70379, 70383); (70394, 70399); (70404, 70404); (70413, 70414);
  (70417, 70418); (70441, 70441); (70449, 70449); (70452, 70452);
  (70458, 70458); (70469, 70470); (70473, 70474); (70478, 70479);
  (70481, 70486); (70488, 70492); (70500, 70501); (70509, 70511);
  (70517, 70655); (70748, 70748); (70754, 70783); (70856, 70863);
  (70874, 71039); (71094, 71095); (71134, 71167); (71237, 71247);
  (71258, 71263); (71277, 71295); (71354, 71359); (71370, 71423);
  (71451, 71452); (71468, 71471); (71495, 71679); (71740, 71839);
  (71923, 71934); (71943, 71944); (71946, 71947); (71956, 71956);
  (71959, 71959); (71990, 71990); (71993, 71994); (72007, 72015);
  (72026, 72095); (72104, 72105); (72152, 72153); (72165, 72191);
  (72264, 72271); (72355, 72367); (72441, 72703); (72713, 72713);
  (72759, 72759); (72774, 72783); (72813, 72815); (72848, 72849);
  (72872, 72872); (72887, 72959); (72967, 72967); (72970, 72970);
  (73015, 73017); (73019, 73019); (73022, 73022); (73032, 73039);
  (73050, 73055); (73062, 73062); (73065, 73065); (73103, 73103);
  (73106, 73106); (73113, 73119); (73130, 73439); (73465, 73647);
  (73649, 73663); (73714, 73726); (74650, 74751); (74863, 74863);
  (74869, 74879); (75076, 77711); (77811, 77823); (78895, 82943);
  (83527, 92159); (92729, 92735); (92767, 92767); (92778, 92781);
  (92863, 92863); (92874, 92879); (92910, 92911); (92918, 92927);
  (92998, 93007); (93018, 93018); (93026, 93026); (93048, 93052);
  (93072, 93759); (93851, 93951); (94027, 94030); (94088, 94094);
  (94112, 94175); (94181, 94191); (94194, 94207); (100344, 100351);
  (101590, 101631); (101641, 110575); (110580, 110580); (110588, 110588);
  (110591, 110591); (110883, 110927); (110931, 110947); (110952, 110959);
  (111356, 113663); (113771, 113775); (113789, 113791); (113801, 113807);
  (113818, 113819); (113824, 118527); (118574, 118575); (118599, 118607);
  (118724, 118783); (119030, 119039); (119079, 119080); (119155, 119162);
  (119275, 119295); (119366, 119519); (119540, 119551); (119639, 119647);
  (119673, 119807); (119893, 119893); (119965, 119965); (119968, 119969);
  (119971, 119972); (119975, 119976); (119981, 119981); (119994, 119994);
  (119996, 119996); (120004, 120004); (120070, 120070); (120075, 120076);
  (120085, 120085); (120093, 120093); (120122, 120122); (120127, 120127);
  (120133, 120133); (120135, 120137); (120145, 120145); (120486, 120487);
  (120780, 120781); (121484, 121498); (121504, 121504); (121520, 122623);
  (122655, 122879); (122887, 122887); (122905, 122906); (122914, 122914);
  (122917, 122917); (122923, 123135); (123181, 123183); (123198, 123199);
  (123210, 123213); (123216, 123535); (123567, 123583); (123642, 123646);
  (123648, 124895); (124903, 124903); (124908, 124908); (124911, 124911);
  (124927, 124927); (125125, 125126); (125143, 125183); (125260, 125263);
  (125274, 125277); (125280, 126064); (126133, 126208); (126270, 126463);
  (126468, 126468); (126496, 126496); (126499, 126499); (126501, 126502);
  (126504, 126504); (126515, 126515); (126520, 126520); (126522, 126522);
  (126524, 126529); (126531, 126534); (126536, 126536); (126538, 126538);
  (126540, 126540); (126544, 126544); (126547, 126547); (126549, 126550);
  (126552, 126552); (126554, 126554); (126556, 126556); (126558, 126558);
  (126560, 126560); (126563, 126563); (126565, 126566); (126571, 126571);
  (126579, 126579); (126584, 126584); (126589, 126589); (126591, 126591);
  (126602, 126602); (126620, 126624); (126628, 126628); (126634, 126634);
  (126652, 126703); (126706, 126975); (127020, 127023); (127124, 127135);
  (127151, 127152); (127168, 127168); (127184, 127184); (127222, 127231);
  (127406, 127461); (127491, 127503); (127548, 127551); (127561, 127567);
  (127570, 127583); (127590, 127743); (128728, 128732); (128749, 128751);
  (128765, 128767); (128884, 128895); (128985, 128991); (129004, 129007);
  (129009, 129023); (129036, 129039); (129096, 129103); (129114, 129119);
  (129160, 129167); (129198, 129199); (129202, 129279); (129620, 129631);
  (129646, 129647); (129653, 129655); (129661, 129663); (129671, 129679);
  (129709, 129711); (129723, 129727); (129734, 129743); (129754, 129759);
  (129768, 129775); (129783, 129791); (129939, 129939); (129995, 130031);
  (130042, 131071); (173792, 173823); (177977, 177983); (178206, 178207);
  (183970, 183983); (191457, 194559); (195102, 196607); (201547, 917759);
  (918000, 1114111)
]%N.

Definition char_isprintable (c : char) : bool :=
  negb (existsb (fun r => N.leb (fst r) c && N.leb c (snd r))
          nonprintable_ranges).

(** [s.isprintable()]: every character is printable (true for the empty
    string). *)
Definition isprintable (s : pystr) : bool := forallb char_isprintable s.

(** [c.isspace()] (CPython 3.11, Unicode 14.0.0). *)
Definition char_isspace (c : char) : bool :=
  existsb (N.eqb c)
    [9; 10; 11; 12; 13; 28; 29; 30; 31; 32; 133; 160; 5760; 8192; 8193; 8194;
     8195; 8196; 8197; 8198; 8199; 8200; 8201; 8202; 8232; 8233; 8239; 8287;
     12288]%N.

(** Non-printable in the words of the specification, for comparison with
    [char_isprintable]: whitespace, control characters and non-printable
    Unicode all count as non-printable. *)
Definition spec_nonprintable (c : char) : bool :=
  char_isspace c || negb (char_isprintable c).

(** ** Floats *)

(** A finite double is the rational it denotes exactly; the sign of zero is
    not distinguished. *)
Inductive pyfloat :=
| Finite (q : Q)
| PosInf
| NegInf
| NaN.

Definition is_finite (x : pyfloat) : bool :=
  match x with Finite _ => true | _ => false end.

(** The text produced by ["{:.4f}".format(x)]: an optional sign, digits, a
    point and exactly four digits, that is an integer number of units of
    1/10^4; or one of [inf], [-inf], [nan]. *)
Inductive fixed4 :=
| F4 (units : Z)
| F4PosInf
| F4NegInf
| F4NaN.

(** Rounding to the nearest integer, ties to even: the rule of Python's
    float formatting, which rounds the exact binary value. *)
Definition round_half_even (q : Q) : Z :=
  let a := Qnum q in
  let b := Zpos (Qden q) in
  let n := a / b in
  let r := a mod b in
  match 2 * r ?= b with
  | Lt => n
  | Gt => n + 1
  | Eq => if Z.even n then n else n + 1
  end.

Definition format_4f (x : pyfloat) : fixed4 :=
  match x with
  | Finite q => F4 (round_half_even (Qmult q (inject_Z 10000)))
  | PosInf => F4PosInf
  | NegInf => F4NegInf
  | NaN => F4NaN
  end.

(** [float(text)] on such a text. The double it returns is the one nearest
    to the decimal; it is represented here by the decimal itself, which is
    what that double prints back as, and is formatted back to, as long as
    the text has fewer than sixteen significant digits -- so for every
    probability. Beyond that the two differ, and nothing below relies on
    it. *)
Definition float_of_fixed4 (t : fixed4) : pyfloat :=
  match t with
  | F4 k => Finite (Qmake k 10000)
  | F4PosInf => PosInf
  | F4NegInf => NegInf
  | F4NaN => NaN
  end.

Definition in_unit_interval (x : pyfloat) : Prop :=
  match x with
  | Finite q => Qle 0 q /\ Qle q 1
  | _ => False
  end.

(** ** Values and exceptions *)

(** What [json.loads] can return. A [VDict] lists the items of the parsed
    dict, whose keys are distinct. *)
Inductive pyval :=
| VNone
| VBool (b : bool)
| VInt (z : Z)
| VFloat (x : pyfloat)
| VStr (s : pystr)
| VList (items : list pyval)
| VDict (items : list (pystr * pyval)).

(** The exceptions of the pipeline, all subclasses of [Exception].
    [External] stands for whatever a collaborator (the classifier, the file
    system) raises, with its message. *)
Inductive exn :=
| HTTPException (status_code : Z) (detail : string)
| JSONDecodeError
| UnicodeDecodeError
| AttributeError
| TypeError
| IndexError
| ValueError
| External (msg : string).

Inductive result (A : Type) :=
| Ok (a : A)
| Raise (e : exn).
Arguments Ok {A} a.
Arguments Raise {A} e.

Notation "'let?' x ':=' c 'in' k" :=
  (match c with Ok x => k | Raise e => Raise e end)
  (at level 10, x name, c at level 100, k at level 200).

(** [bool(v)], as the test [not note] uses it. *)
Definition truthy (v : pyval) : bool :=
  match v with
  | VNone => false
  | VBool b => b
  | VInt z => negb (Z.eqb z 0)
  | VFloat (Finite q) => negb (Qeq_bool q 0)
  | VFloat _ => true
  | VStr s => negb (Nat.eqb (List.length s) 0)
  | VList l => negb (Nat.eqb (List.length l) 0)
  | VDict d => negb (Nat.eqb (List.length d) 0)
  end.

(** [len(v)]; numbers, booleans and [None] have no length. *)
Definition len (v : pyval) : result Z :=
  match v with
  | VStr s => Ok (Z.of_nat (List.length s))
  | VList l => Ok (Z.of_nat (List.length l))
  | VDict d => Ok (Z.of_nat (List.length d))
  | _ => Raise TypeError
  end.

(** The items a [for] loop over [v] yields: the characters of a string (each
    a one-character string), the elements of a list, the keys of a dict. *)
Definition iter (v : pyval) : result (list pyval) :=
  match v with
  | VStr s => Ok (map (fun c => VStr [c]) s)
  | VList l => Ok l
  | VDict d => Ok (map (fun kv => VStr (fst kv)) d)
  | _ => Raise TypeError
  end.

(** [v.isprintable()]: only strings have the method. *)
Definition call_isprintable (v : pyval) : result bool :=
  match v with
  | VStr s => Ok (isprintable s)
  | _ => Raise AttributeError
  end.

(** [any(char.isprintable() for char in items)]: stops at the first true
    item, and at the first item that raises. *)
Fixpoint any_isprintable (items : list pyval) : result bool :=
  match items with
  | [] => Ok false
  | x :: rest =>
      let? b := call_isprintable x in
      if b then Ok true else any_isprintable rest
  end.

(** [l[:m]] on a sequence: the first [m] items, or for a negative [m] all
    but the last [-m]. *)
Definition slice_to {A : Type} (l : list A) (m : Z) : list A :=
  if 0 <=? m then firstn (Z.to_nat m) l
  else firstn (Z.to_nat (Z.of_nat (List.length l) + m)) l.

(** [v[:m]]; a dict cannot be sliced (the attempt raises [TypeError], or
    [KeyError] from Python 3.12 on). *)
Definition py_slice_to (v : pyval) (m : Z) : result pyval :=
  match v with
  | VStr s => Ok (VStr (slice_to s m))
  | VList l => Ok (VList (slice_to l m))
  | _ => Raise TypeError
  end.

Fixpoint assoc (key : pystr) (items : list (pystr * pyval)) : option pyval :=
  match items with
  | [] => None
  | (k, v) :: rest => if pystr_eqb key k then Some v else assoc key rest
  end.

(** [data.get(key, default)]; only a dict has [get]. *)
Definition py_get (data : pyval) (key : pystr) (default : pyval)
  : result pyval :=
  match data with
  | VDict items =>
      Ok (match assoc key items with Some v => v | None => default end)
  | _ => Raise AttributeError
  end.

(** [x in l] on a list of strings. *)
Definition contains (x : pystr) (l : list pystr) : bool :=
  existsb (pystr_eqb x) l.

(** ** Requests, responses and the world *)

(** The classifier's answer: [prediction[0]] is the label, [prediction[1]]
    the index of the predicted class, [prediction[2]] the probabilities of
    all classes. *)
Record prediction := {
  pred_label : pystr;
  pred_index : nat;
  pred_probs : list pyfloat
}.

(** A JSON payload of a response. [ErrorBody e] is [{"error": str(e)}],
    [DetailBody d] is [{"detail": d}], the framework's rendering of an
    [HTTPException] that leaves a handler or a dependency. *)
Inductive body :=
| PredictionBody (label : pystr) (score : pyfloat)
| ErrorBody (e : exn)
| DetailBody (detail : string).

Record response := {
  status_code : Z;
  content : body
}.

(** What a request carries: the credential of its [Authorization: Bearer]
    header ([None] when the header is missing or is no bearer header), and
    what [request.json()] makes of its body: the value it parses to, or the
    exception raised on a body that does not parse ([JSONDecodeError] for
    text that is not JSON, [UnicodeDecodeError] for bytes that are not
    UTF-8). *)
Record request := {
  req_bearer : option pystr;
  req_json : result pyval
}.

(** The effects of one request, in the order they happen. [EvStderr e] is
    the line ["Record failed: " + str(e)] on the error stream. *)
Inductive event :=
| EvJson
| EvPredict (text : pyval)
| EvAppend (text : pystr)
| EvStderr (e : exn).

(** The state around the handler: the text of the record file (empty when
    the file does not exist), the exception that opening or writing it
    raises at present, if any, and the effects so far. *)
Record world := {
  record_file : pystr;
  fs_fault : option exn;
  trace : list event
}.

Definition log (ev : event) (w : world) : world :=
  {| record_file := record_file w;
     fs_fault := fs_fault w;
     trace := trace w ++ [ev] |}.

(** The arguments of the calls of the classifier in a trace. *)
Fixpoint model_inputs (t : list event) : list pyval :=
  match t with
  | [] => []
  | EvPredict x :: t' => x :: model_inputs t'
  | _ :: t' => model_inputs t'
  end.

(** The texts written to the record file in a trace. *)
Fixpoint appended (t : list event) : list pystr :=
  match t with
  | [] => []
  | EvAppend x :: t' => x :: appended t'
  | _ :: t' => appended t'
  end.

(** Computations with effects that may raise. *)
Definition M (A : Type) : Type := world -> result A * world.

Definition ret {A} (a : A) : M A := fun w => (Ok a, w).

Definition raise {A} (e : exn) : M A := fun w => (Raise e, w).

Definition bind {A B} (c : M A) (k : A -> M B) : M B :=
  fun w =>
    match c w with
    | (Ok a, w') => k a w'
    | (Raise e, w') => (Raise e, w')
    end.

Definition lift {A} (r : result A) : M A := fun w => (r, w).

(** [try: c  except Exception as e: h e] *)
Definition try_except {A} (c : M A) (h : exn -> M A) : M A :=
  fun w =>
    match c w with
    | (Ok a, w') => (Ok a, w')
    | (Raise e, w') => h e w'
    end.

Notation "x <- c ;; k" := (bind c (fun x => k))
  (at level 61, c at next level, right associativity).
Notation "c ;;; k" := (bind c (fun _ => k))
  (at level 61, right associativity).

(** [await request.json()] *)
Definition request_json (r : request) : M pyval :=
  fun w => (req_json r, log EvJson w).

(** [with open(record_path, 'a') as f: f.write(text)] *)
Definition append_record (text : pystr) : M unit :=
  fun w =>
    match fs_fault w with
    | Some e => (Raise e, w)
    | None =>
        (Ok tt,
         {| record_file := record_file w ++ text;
            fs_fault := fs_fault w;
            trace := trace w ++ [EvAppend text] |})
    end.

(** [print(f"Record failed: {str(e)}", file=sys.stderr)] *)
Definition print_record_failed (e : exn) : M unit :=
  fun w => (Ok tt, log (EvStderr e) w).

(** [JSONResponse(content=..., status_code=...)]: the payload is rendered
    when the response is built, and a float that is not finite is refused. *)
Definition JSONResponse (c : body) (status : Z) : result response :=
  match c with
  | PredictionBody _ score =>
      if is_finite score then Ok {| status_code := status; content := c |}
      else Raise ValueError
  | _ => Ok {| status_code := status; content := c |}
  end.

(** What the framework answers when an exception leaves a dependency or a
    handler. *)
Definition exception_response (e : exn) : response :=
  match e with
  | HTTPException s d => {| status_code := s; content := DetailBody d |}
  | _ => {| status_code := 500; content := DetailBody "Internal Server Error" |}
  end.

Definition TAB : char := 9%N.
Definition NEWLINE : char := 10%N.

(** ** Start-up

    The statements the module runs when it is loaded: reading the
    configuration, the check that a model path and tokens are configured,
    loading the model, and the check that it was loaded. *)

(** The module-level names bound from [config.yaml]. *)
Record settings := {
  cfg_model_path : pyval;
  cfg_tokens : pyval;
  cfg_record_path : pyval;
  cfg_host : pyval;
  cfg_port : pyval;
  cfg_record_enabled : pyval;
  cfg_max_content_length : pyval
}.

(** What start-up does besides binding names. [BootStdoutError m] is the
    line [json.dumps({'error': m})] on the standard output, [BootStderr e]
    the line ["Model loading failed: " + str(e)] on the error stream. *)
Inductive boot_event :=
| BootLoadLearner (path : pyval)
| BootStdoutError (message : string)
| BootStderr (e : exn).

(** How loading the module ends: the server is ready with its settings and
    its model, the process exits with a code, or an exception nobody
    catches ends it. *)
Inductive boot (L : Type) :=
| Serving (s : settings) (learn : L)
| SystemExit (code : Z)
| Uncaught (e : exn).
Arguments Serving {L} s learn.
Arguments SystemExit {L} code.
Arguments Uncaught {L} e.

(** The [config.get] calls of lines 17 to 23, with their defaults. *)
Definition read_settings (config : pyval) : result settings :=
  let? model_path := py_get config (of_ascii "model_path") VNone in
  let? tokens := py_get config (of_ascii "tokens") (VList []) in
  let? record_path :=
    py_get config (of_ascii "record_path") (VStr (of_ascii "record.xls")) in
  let? host := py_get config (of_ascii "host") (VStr (of_ascii "127.0.0.1")) in
  let? port := py_get config (of_ascii "port") (VInt 3001) in
  let? record_enabled :=
    py_get config (of_ascii "record_enabled") (VBool false) in
  let? max_content_length :=
    py_get config (of_ascii "max_content_length") (VInt 3000) in
  Ok {| cfg_model_path := model_path;
        cfg_tokens := tokens;
        cfg_record_path := record_path;
        cfg_host := host;
        cfg_port := port;
        cfg_record_enabled := record_enabled;
        cfg_max_content_length := max_content_length |}.

(** [load_model]: the learner, or [None] after a report on the error stream
    when [load_learner] raises. *)
Definition load_model {L : Type} (load_learner : pyval -> result L)
    (model_path : pyval) : option L * list boot_event :=
  match load_learner model_path with
  | Ok learn => (Some learn, [BootLoadLearner model_path])
  | Raise e => (None, [BootLoadLearner model_path; BootStderr e])
  end.

(** Loading the module, given what [load_config()] returns or raises,
    the library function [load_learner] and the truth value of a learner
    ([bool(learn)]). *)
Definition startup {L : Type} (load_learner : pyval -> result L)
    (learner_truthy : L -> bool) (loaded : result pyval)
  : boot L * list boot_event :=
  match loaded with
  | Raise e => (Uncaught e, [])
  | Ok config =>
      match read_settings config with
      | Raise e => (Uncaught e, [])
      | Ok s =>
          if negb (truthy (cfg_model_path s)) || negb (truthy (cfg_tokens s))
          then
            (SystemExit 1,
             [BootStdoutError "Model path or tokens missing in config."])
          else
            let (learn, events) := load_model load_learner (cfg_model_path s) in
            match learn with
            | Some l =>
                if negb (learner_truthy l)
                then
                  (SystemExit 1,
                   events ++ [BootStdoutError "Model loading failed at startup."])
                else (Serving s l, events)
            | None =>
                (SystemExit 1,
                 events ++ [BootStdoutError "Model loading failed at startup."])
            end
      end
  end.

(** ** A concrete installation

    A configuration, a classifier and a rendering of floats on which the
    pipeline can be run. *)

Definition demo_tokens : list pystr := [of_ascii "abc123"].

Definition demo_note : pystr := of_ascii "Great service today!".

Definition demo_label : pystr := of_ascii "positive".

(** 0.9235 *)
Definition demo_score : pyfloat := Finite (Qmake 9235 10000).

(** The double nearest to 0.9234567. *)
Definition demo_probability : Q := Qmake 1039719812503197 1125899906842624.

(** A classifier that answers "positive" with that probability whatever it
    is given. *)
Definition demo_learn (_ : world) (_ : pyval) : result prediction :=
  Ok {| pred_label := demo_label;
        pred_index := 1;
        pred_probs := [Finite (Qminus 1 demo_probability);
                       Finite demo_probability] |}.

(** A classifier whose answer depends on how many effects came before. *)
Definition moody_learn (w : world) (_ : pyval) : result prediction :=
  Ok {| pred_label := demo_label;
        pred_index := 0;
        pred_probs :=
          [Finite (Qmake 1 (Pos.of_succ_nat (List.length (trace w))))] |}.

Definition digit (d : Z) : char := Z.to_N (48 + d).

(** The digits after the point of a count of 1/10^4 units, without trailing
    zeros but with at least one digit. *)
Definition fraction_digits (f : Z) : pystr :=
  let d1 := f / 1000 in
  let d2 := (f / 100) mod 10 in
  let d3 := (f / 10) mod 10 in
  let d4 := f mod 10 in
  if negb (d4 =? 0) then [digit d1; digit d2; digit d3; digit d4]
  else if negb (d3 =? 0) then [digit d1; digit d2; digit d3]
  else if negb (d2 =? 0) then [digit d1; digit d2]
  else [digit d1].

(** The digits of a count of 1/10^4 units that is not negative. *)
Definition decimal_digits (k : Z) : pystr :=
  of_ascii (NilZero.string_of_uint (N.to_uint (Z.to_N (k / 10000))))
  ++ of_ascii "." ++ fraction_digits (k mod 10000).

(** [repr] of the floats that [predict] returns: [nan], [inf], [-inf], and
    the shortest decimal of a value of at most four decimals below 10^16 in
    magnitude. Larger floats and values that are not floats are outside
    its domain and get the empty text. *)
Definition demo_repr (v : pyval) : pystr :=
  match v with
  | VFloat NaN => of_ascii "nan"
  | VFloat PosInf => of_ascii "inf"
  | VFloat NegInf => of_ascii "-inf"
  | VFloat (Finite (Qmake k 10000)) =>
      if (0 <=? k) && (k <? 10 ^ 20) then decimal_digits k
      else if (k <? 0) && (- 10 ^ 20 <? k)
      then of_ascii "-" ++ decimal_digits (- k)
      else []
  | _ => []
  end.

(** A configuration with the two required entries and the model at
    [path], and the settings read from it. *)
Definition config_with_model (path : string) : pyval :=
  VDict [(of_ascii "model_path", VStr (of_ascii path));
         (of_ascii "tokens", VList [VStr (of_ascii "abc123")])].

Definition settings_with_model (path : string) : settings :=
  {| cfg_model_path := VStr (of_ascii path);
     cfg_tokens := VList [VStr (of_ascii "abc123")];
     cfg_record_path := VStr (of_ascii "record.xls");
     cfg_host := VStr (of_ascii "127.0.0.1");
     cfg_port := VInt 3001;
     cfg_record_enabled := VBool false;
     cfg_max_content_length := VInt 3000 |}.

(** A library that finds a model at [model.pkl] and nowhere else. *)
Definition demo_load_learner (path : pyval) : result unit :=
  match path with
  | VStr p =>
      if pystr_eqb p (of_ascii "model.pkl") then Ok tt
      else Raise (External "No such file or directory")
  | _ => Raise TypeError
  end.

(** A classifier that fails on every text. *)
Definition failing_learn (_ : world) (_ : pyval) : result prediction :=
  Raise (External "out of memory").

(** A classifier whose index points past its two probabilities. *)
Definition stray_learn (_ : world) (_ : pyval) : result prediction :=
  Ok {| pred_label := demo_label;
        pred_index := 2;
        pred_probs := [Finite (Qmake 1 4); Finite (Qmake 3 4)] |}.

(** A classifier whose probability is not a number. *)
Definition nan_learn (_ : world) (_ : pyval) : result prediction :=
  Ok {| pred_label := demo_label; pred_index := 0; pred_probs := [NaN] |}.

(** A body whose [note] is any value. *)
Definition value_body (v : pyval) : pyval := VDict [(of_ascii "note", v)].

(** A note that is a list of four one-letter strings. *)
Definition list_note : list pyval :=
  [VStr (of_ascii "a"); VStr (of_ascii "b"); VStr (of_ascii "c");
   VStr (of_ascii "d")].

(** A note that is an object with three keys. *)
Definition dict_note : list (pystr * pyval) :=
  [(of_ascii "a", VInt 1); (of_ascii "b", VInt 2); (of_ascii "c", VInt 3)].

(** The refusal of the framework in the releases that answer 403, and in
    those that answer 401. *)
Definition refusal_403 (_ : request) : Z * string :=
  (403, "Not authenticated"%string).


Definition empty_world : world :=
  {| record_file := []; fs_fault := None; trace := [] |}.

(** A world in which the record file cannot be written. *)
Definition readonly_world : world :=
  {| record_file := [];
     fs_fault := Some (External "Permission denied");
     trace := [] |}.

Definition post (token : string) (data : pyval) : request :=
  {| req_bearer := Some (of_ascii token); req_json := Ok data |}.

Definition note_body (note : pystr) : pyval :=
  VDict [(of_ascii "note", VStr note)].


(** A request whose body does not parse, [request.json()] raising [e]. *)
Definition garbled (token : string) (e : exn) : request :=
  {| req_bearer := Some (of_ascii token); req_json := Raise e |}.

(** A body without the field [note]. *)
Definition text_body : pyval := VDict [(of_ascii "text", VStr demo_note)].

Section Server.

(** The values read from [config.yaml] when the module is loaded. *)
Variable tokens : list pystr.
Variable record_enabled : bool.
Variable max_content_length : Z.

(** [learn.predict]: the classifier, which may depend on anything that
    happened before the call, and may raise. *)
Variable learn_predict : world -> pyval -> result prediction.

(** [str(v)] for a value that is not a string: Python's [repr] of floats,
    lists, dicts and the like. *)
Variable py_repr : pyval -> pystr.

(** The status and the detail of the [HTTPException] with which the
    framework's [HTTPBearer] refuses a request that has no bearer
    credential. They are the framework's, not this program's, and depend on
    its release and on the header: 403 in the releases of the time of the
    code, 401 in later ones. *)
Variable bearer_refusal : request -> Z * string.

(** [security = HTTPBearer()]: the credential of the request, or the
    framework's refusal. *)
Definition security (r : request) : result pystr :=
  match req_bearer r with
  | Some c => Ok c
  | None =>
      Raise (HTTPException (fst (bearer_refusal r)) (snd (bearer_refusal r)))
  end.

(** [f"{v}"] *)
Definition format_value (v : pyval) : pystr :=
  match v with
  | VStr s => s
  | _ => py_repr v
  end.

Definition verify_token (credentials : pystr) : result unit :=
  if negb (contains credentials tokens)
  then Raise (HTTPException 403 "Invalid or missing token")
  else Ok tt.

Definition validate_content_length (content : pyval) : result pyval :=
  let? n := len content in
  if max_content_length <? n
  then py_slice_to content max_content_length
  else Ok content.

Definition is_invisible (content : pyval) : result bool :=
  let? items := iter content in
  let? b := any_isprintable items in
  Ok (negb b).

Definition record_result (note : pyval) (score : pyfloat) : M unit :=
  if record_enabled then
    try_except
      (append_record
         (format_value note ++ [TAB] ++ py_repr (VFloat score) ++ [NEWLINE]))
      print_record_failed
  else ret tt.

(** [await asyncio.to_thread(learn.predict, text)] *)
Definition call_model (text : pyval) : M prediction :=
  fun w => (learn_predict w text, log (EvPredict text) w).

Definition item_at (probs : list pyfloat) (i : nat) : result pyfloat :=
  match nth_error probs i with
  | Some p => Ok p
  | None => Raise IndexError
  end.

Definition predict (content : pyval) : M (pystr * pyfloat) :=
  truncated_content <- lift (validate_content_length content) ;;
  prediction <- call_model truncated_content ;;
  let label := pred_label prediction in
  p <- lift (item_at (pred_probs prediction) (pred_index prediction)) ;;
  let score := float_of_fixed4 (format_4f p) in
  ret (label, score).

(** The body of the [try] block of the handler. *)
Definition predict_endpoint_try (request : request) : M response :=
  data <- request_json request ;;
  note <- lift (py_get data (of_ascii "note") (VStr [])) ;;
  if negb (truthy note)
  then raise (HTTPException 400 "Note is required")
  else
    n <- lift (len note) ;;
    if n <? 3
    then raise (HTTPException 400 "Note is too short")
    else
      invisible <- lift (is_invisible note) ;;
      if invisible
      then raise (HTTPException 400 "Note contains only invisible characters")
      else
        ls <- predict note ;;
        record_result note (snd ls) ;;;
        lift (JSONResponse (PredictionBody (fst ls) (snd ls)) 200).

Definition predict_endpoint (request : request) : M response :=
  try_except (predict_endpoint_try request)
    (fun e => lift (JSONResponse (ErrorBody e) 500)).

(** The route [POST /predict/]: the framework resolves the dependency
    [verify_token], itself depending on [security], before it calls the
    handler; an exception of a dependency is answered by the framework. *)
Definition app (request : request) : M response :=
  fun w =>
    match security request with
    | Raise e => (Ok (exception_response e), w)
    | Ok credentials =>
        match verify_token credentials with
        | Raise e => (Ok (exception_response e), w)
        | Ok _ =>
            match predict_endpoint request w with
            | (Raise e, w') => (Ok (exception_response e), w')
            | ok => ok
            end
        end
    end.

(** ** Vocabulary of the properties *)

(** The request carries a credential of the configured token set. *)
Definition authorized (r : request) : Prop :=
  exists c, req_bearer r = Some c /\ In c tokens.

(** The handler extracts [note] from the body of the request. *)
Definition note_of (r : request) (note : pyval) : Prop :=
  exists data,
    req_json r = Ok data /\
    py_get data (of_ascii "note") (VStr []) = Ok note.

(** The note passes the three checks of the handler: it is not empty, it
    has at least three items, and one of them is printable. *)
Definition passes_validation (note : pyval) : Prop :=
  truthy note = true /\
  (exists n, len note = Ok n /\ 3 <= n) /\
  is_invisible note = Ok false.

(** The classifier answers by its input alone. *)
Definition deterministic : Prop :=
  forall w1 w2 x, learn_predict w1 x = learn_predict w2 x.

(** [score] is a multiple of 1/10^4 at most half such a unit away from
    [p]. *)
Definition nearest_4dp (p score : pyfloat) : Prop :=
  exists q k,
    p = Finite q /\ score = Finite (Qmake k 10000) /\
    Qle (Qabs (Qminus (Qmake k 10000) q)) (Qmake 1 20000).

(** The response the handler ends with after a prediction. *)
Definition answer (label : pystr) (score : pyfloat) : response :=
  match JSONResponse (PredictionBody label score) 200 with
  | Ok resp => resp
  | Raise e => {| status_code := 500; content := ErrorBody e |}
  end.

(** ** Basic facts *)

Lemma pystr_eqb_eq (a b : pystr) : pystr_eqb a b = true <-> a = b.
Proof.
  revert b; induction a as [|x a IH]; intros [|y b]; simpl;
    try (split; [discriminate | congruence]); try tauto.
  rewrite andb_true_iff, N.eqb_eq, IH.
  split; [intros [-> ->]; reflexivity | intros H; inversion H; auto].
Qed.

Lemma contains_In (x : pystr) (l : list pystr) :
  contains x l = true <-> In x l.
Proof.
  unfold contains. rewrite existsb_exists. split.
  - intros [y [Hy He]]. apply pystr_eqb_eq in He. now subst.
  - intros H. exists x. split; [assumption | now apply pystr_eqb_eq].
Qed.

Lemma verify_token_member (c : pystr) : In c tokens -> verify_token c = Ok tt.
Proof.
  intros H. unfold verify_token.
  apply contains_In in H. now rewrite H.
Qed.

Lemma verify_token_stranger (c : pystr) :
  ~ In c tokens ->
  verify_token c = Raise (HTTPException 403 "Invalid or missing token").
Proof.
  intros H. unfold verify_token.
  destruct (contains c tokens) eqn:E; [|reflexivity].
  apply contains_In in E. contradiction.
Qed.

Lemma model_inputs_app (t u : list event) :
  model_inputs (t ++ u) = model_inputs t ++ model_inputs u.
Proof.
  induction t as [|[| x | x | e] t IH]; simpl; rewrite ?IH; reflexivity.
Qed.

Lemma appended_app (t u : list event) :
  appended (t ++ u) = appended t ++ appended u.
Proof.
  induction t as [|[| x | x | e] t IH]; simpl; rewrite ?IH; reflexivity.
Qed.

(** Normal form of the calls and writes recorded in an extended trace. *)
Ltac trace_norm :=
  cbn [log trace record_file fs_fault snd fst];
  repeat rewrite model_inputs_app;
  repeat rewrite appended_app;
  cbn [model_inputs appended];
  rewrite ?app_nil_r.

(** On a string, [any] looks for a printable character. *)
Lemma any_isprintable_chars (s : pystr) :
  any_isprintable (map (fun c => VStr [c]) s) = Ok (existsb char_isprintable s).
Proof.
  induction s as [|c s IH]; simpl; [reflexivity|].
  rewrite andb_true_r.
  destruct (char_isprintable c); simpl; [reflexivity | exact IH].
Qed.

Lemma is_invisible_str (s : pystr) :
  is_invisible (VStr s) = Ok (negb (existsb char_isprintable s)).
Proof.
  unfold is_invisible; simpl. now rewrite any_isprintable_chars.
Qed.

Lemma existsb_none {A} (f : A -> bool) (l : list A) :
  forallb (fun x => negb (f x)) l = true -> existsb f l = false.
Proof.
  induction l as [|x l IH]; simpl; [reflexivity|].
  rewrite andb_true_iff. intros [Hx Hl].
  apply negb_true_iff in Hx. rewrite Hx. simpl. auto.
Qed.

(** ** The handler, step by step *)

(** Once the note is extracted, the handler is its three guards followed
    by prediction, recording and the response. *)
Lemma predict_endpoint_try_note (r : request) (note : pyval) (w : world) :
  note_of r note ->
  predict_endpoint_try r w =
  (if negb (truthy note)
   then raise (HTTPException 400 "Note is required")
   else
     n <- lift (len note) ;;
     if n <? 3
     then raise (HTTPException 400 "Note is too short")
     else
       invisible <- lift (is_invisible note) ;;
       if invisible
       then raise (HTTPException 400 "Note contains only invisible characters")
       else
         ls <- predict note ;;
         record_result note (snd ls) ;;;
         lift (JSONResponse (PredictionBody (fst ls) (snd ls)) 200))
    (log EvJson w).
Proof.
  intros [data [Hjson Hget]].
  unfold predict_endpoint_try at 1, bind at 1 2, request_json, lift at 1.
  rewrite Hjson, Hget. reflexivity.
Qed.

Lemma predict_endpoint_try_valid (r : request) (note : pyval) (w : world) :
  note_of r note -> passes_validation note ->
  predict_endpoint_try r w =
  (ls <- predict note ;;
   record_result note (snd ls) ;;;
   lift (JSONResponse (PredictionBody (fst ls) (snd ls)) 200)) (log EvJson w).
Proof.
  intros Hnote [Ht [[n [Hn Hn3]] Hinv]].
  rewrite (predict_endpoint_try_note _ _ w Hnote), Ht.
  unfold bind at 1 2, lift at 1 2. cbn [negb]. rewrite Hn.
  destruct (n <? 3) eqn:E; [apply Z.ltb_lt in E; lia|].
  rewrite Hinv. reflexivity.
Qed.

(** A request that gets past the authorizer is answered by the handler. *)
Lemma app_authorized (r : request) (w : world) :
  authorized r ->
  app r w =
  match predict_endpoint r w with
  | (Raise e, w') => (Ok (exception_response e), w')
  | ok => ok
  end.
Proof.
  intros [c [Hc Hin]]. unfold app, security. rewrite Hc.
  now rewrite (verify_token_member _ Hin).
Qed.

(** The handler never raises: every exception of its body becomes a
    response with status 500. *)
Lemma predict_endpoint_total (r : request) (w : world) :
  exists resp w', predict_endpoint r w = (Ok resp, w').
Proof.
  unfold predict_endpoint, try_except.
  destruct (predict_endpoint_try r w) as [[resp | e] w'].
  - now exists resp, w'.
  - unfold lift; simpl. now eexists _, _.
Qed.

Lemma predict_endpoint_raise (r : request) (w w' : world) (e : exn) :
  predict_endpoint_try r w = (Raise e, w') ->
  predict_endpoint r w =
  (Ok {| status_code := 500; content := ErrorBody e |}, w').
Proof.
  intros H. unfold predict_endpoint, try_except. now rewrite H.
Qed.

(** ** Rejected notes *)

Lemma try_empty_note (r : request) (w : world) :
  note_of r (VStr []) ->
  predict_endpoint_try r w =
  (Raise (HTTPException 400 "Note is required"), log EvJson w).
Proof.
  intros Hnote. now rewrite (predict_endpoint_try_note _ _ w Hnote).
Qed.

Lemma try_short_note (r : request) (w : world) (s : pystr) :
  note_of r (VStr s) -> s <> [] -> (List.length s < 3)%nat ->
  predict_endpoint_try r w =
  (Raise (HTTPException 400 "Note is too short"), log EvJson w).
Proof.
  intros Hnote Hs Hlen. rewrite (predict_endpoint_try_note _ _ w Hnote).
  destruct s as [|a [|b [|c s]]]; try contradiction; try reflexivity.
  simpl in Hlen. lia.
Qed.

Lemma try_invisible_note (r : request) (w : world) (s : pystr) :
  note_of r (VStr s) -> (3 <= List.length s)%nat ->
  forallb (fun c => negb (char_isprintable c)) s = true ->
  predict_endpoint_try r w =
  (Raise (HTTPException 400 "Note contains only invisible characters"),
   log EvJson w).
Proof.
  intros Hnote Hlen Hinv. rewrite (predict_endpoint_try_note _ _ w Hnote).
  assert (Ht : truthy (VStr s) = true).
  { destruct s; [simpl in Hlen; lia | reflexivity]. }
  rewrite Ht. unfold bind, lift. cbn [negb len].
  destruct (Z.of_nat (List.length s) <? 3) eqn:E;
    [apply Z.ltb_lt in E; lia|].
  rewrite is_invisible_str, (existsb_none _ _ Hinv). reflexivity.
Qed.

(** The catch-all [except] of the handler turns the [HTTPException] of a
    failed check into a response with status 500. *)
Lemma rejected_note_response (r : request) (w : world) (d : string) :
  authorized r ->
  predict_endpoint_try r w = (Raise (HTTPException 400 d), log EvJson w) ->
  app r w =
  (Ok {| status_code := 500; content := ErrorBody (HTTPException 400 d) |},
   log EvJson w).
Proof.
  intros Hauth Htry.
  rewrite (app_authorized _ w Hauth), (predict_endpoint_raise _ _ _ _ Htry).
  reflexivity.
Qed.

(** The three checks are decided on the note as submitted. *)
Lemma passes_validation_str (s : pystr) :
  passes_validation (VStr s) <->
  (3 <= List.length s)%nat /\ existsb char_isprintable s = true.
Proof.
  unfold passes_validation. rewrite is_invisible_str. simpl. split.
  - intros [_ [[n [Hn Hn3]] Hinv]]. inversion Hn; subst. split; [lia|].
    now destruct (existsb char_isprintable s).
  - intros [Hlen Hex]. repeat split.
    + destruct s; [simpl in Hlen; lia | reflexivity].
    + exists (Z.of_nat (List.length s)). split; [reflexivity | lia].
    + now rewrite Hex.
Qed.

(** ** Rounding to four decimals *)

Lemma round_half_even_spec (q : Q) :
  exists n r,
    Qnum q = Zpos (Qden q) * n + r /\ 0 <= r < Zpos (Qden q) /\
    (round_half_even q = n \/ round_half_even q = n + 1) /\
    (round_half_even q = n -> 2 * r <= Zpos (Qden q)) /\
    (round_half_even q = n + 1 -> Zpos (Qden q) <= 2 * r).
Proof.
  exists (Qnum q / Zpos (Qden q)), (Qnum q mod Zpos (Qden q)).
  pose proof (Z.div_mod (Qnum q) (Zpos (Qden q)) ltac:(lia)) as Hdm.
  pose proof (Z.mod_pos_bound (Qnum q) (Zpos (Qden q)) ltac:(lia)) as Hb.
  split; [exact Hdm|]. split; [exact Hb|].
  unfold round_half_even.
  destruct (Z.compare_spec (2 * (Qnum q mod Zpos (Qden q))) (Zpos (Qden q)))
    as [He | Hl | Hg].
  - destruct (Z.even (Qnum q / Zpos (Qden q)));
      (split; [auto|]); split; intros; lia.
  - split; [auto|]. split; intros; lia.
  - split; [auto|]. split; intros; lia.
Qed.

(** The rounded value is within half a unit of the exact one. *)
Lemma round_half_even_near (q : Q) :
  2 * Z.abs (round_half_even q * Zpos (Qden q) - Qnum q) <= Zpos (Qden q).
Proof.
  destruct (round_half_even_spec q) as [n [r [Ha [Hr [Hk [Hlo Hhi]]]]]].
  destruct Hk as [Hk | Hk].
  - specialize (Hlo Hk). rewrite Hk, Ha. nia.
  - specialize (Hhi Hk). rewrite Hk, Ha. nia.
Qed.

Lemma round_half_even_range (q : Q) (m : Z) :
  0 <= m -> 0 <= Qnum q <= m * Zpos (Qden q) ->
  0 <= round_half_even q <= m.
Proof.
  intros Hm Hq.
  destruct (round_half_even_spec q) as [n [r [Ha [Hr [Hk [Hlo Hhi]]]]]].
  assert (Hb : 0 < Zpos (Qden q)) by lia.
  rewrite Ha in Hq. clear Ha.
  remember (Zpos (Qden q)) as b eqn:Eb. clear Eb.
  assert (0 <= n) by nia.
  assert (n <= m) by nia.
  destruct Hk as [Hk | Hk]; [lia|].
  specialize (Hhi Hk).
  assert (n <> m) by nia. lia.
Qed.

(** Formatting with four decimals yields the multiple of 1/10^4 nearest to
    the value. *)
Lemma format_4f_nearest (q : Q) :
  nearest_4dp (Finite q) (float_of_fixed4 (format_4f (Finite q))).
Proof.
  exists q, (round_half_even (Qmult q (inject_Z 10000))).
  split; [reflexivity|]. split; [reflexivity|].
  pose proof (round_half_even_near (Qmult q (inject_Z 10000))) as H.
  set (k := round_half_even (Qmult q (inject_Z 10000))) in *.
  destruct q as [a b].
  change (Qden (Qmult (Qmake a b) (inject_Z 10000))) with (b * 1)%positive in H.
  change (Qnum (Qmult (Qmake a b) (inject_Z 10000))) with (a * 10000) in H.
  rewrite Pos.mul_1_r in H.
  unfold Qle, Qabs, Qminus, Qplus, Qopp. cbn [Qnum Qden].
  rewrite Pos2Z.inj_mul. lia.
Qed.

(** A value of the unit interval stays in it. *)
Lemma format_4f_unit_interval (p : pyfloat) :
  in_unit_interval p -> in_unit_interval (float_of_fixed4 (format_4f p)).
Proof.
  destruct p as [q | | |]; simpl; try contradiction.
  intros [H0 H1].
  pose proof (round_half_even_range (Qmult q (inject_Z 10000)) 10000) as H.
  set (k := round_half_even (Qmult q (inject_Z 10000))) in *.
  destruct q as [a b].
  change (Qden (Qmult (Qmake a b) (inject_Z 10000))) with (b * 1)%positive in H.
  change (Qnum (Qmult (Qmake a b) (inject_Z 10000))) with (a * 10000) in H.
  rewrite Pos.mul_1_r in H.
  unfold Qle in *. cbn [Qnum Qden] in *.
  assert (Hr : 0 <= k <= 10000) by (apply H; lia).
  lia.
Qed.

(** ** Prediction and recording *)

Lemma predict_eval (content : pyval) (w : world) :
  predict content w =
  match validate_content_length content with
  | Raise e => (Raise e, w)
  | Ok text =>
      match learn_predict w text with
      | Raise e => (Raise e, log (EvPredict text) w)
      | Ok pred =>
          match nth_error (pred_probs pred) (pred_index pred) with
          | None => (Raise IndexError, log (EvPredict text) w)
          | Some p =>
              (Ok (pred_label pred, float_of_fixed4 (format_4f p)),
               log (EvPredict text) w)
          end
      end
  end.
Proof.
  unfold predict, bind, lift, call_model, item_at, ret.
  destruct (validate_content_length content) as [text|e]; [|reflexivity].
  destruct (learn_predict w text) as [pred|e]; [|reflexivity].
  destruct (nth_error (pred_probs pred) (pred_index pred)); reflexivity.
Qed.

(** A prediction that succeeds called the classifier once, on the text
    left by [validate_content_length], and rounded its probability. *)
Lemma predict_ok {content : pyval} {w w1 : world}
    {label : pystr} {score : pyfloat} :
  predict content w = (Ok (label, score), w1) ->
  exists text pred p,
    validate_content_length content = Ok text /\
    learn_predict w text = Ok pred /\
    nth_error (pred_probs pred) (pred_index pred) = Some p /\
    label = pred_label pred /\
    score = float_of_fixed4 (format_4f p) /\
    w1 = log (EvPredict text) w.
Proof.
  rewrite predict_eval.
  destruct (validate_content_length content) as [text|e] eqn:Hv;
    [|discriminate].
  destruct (learn_predict w text) as [pred|e] eqn:Hl; [|discriminate].
  destruct (nth_error (pred_probs pred) (pred_index pred)) as [p|] eqn:Hp;
    [|discriminate].
  intros H. inversion H; subst. exists text, pred, p. auto 10.
Qed.

(** A prediction, successful or not, calls the classifier at most once
    and touches nothing but the trace. *)
Lemma predict_world (content : pyval) (w : world) :
  snd (predict content w) = w \/
  exists text,
    validate_content_length content = Ok text /\
    snd (predict content w) = log (EvPredict text) w.
Proof.
  rewrite predict_eval.
  destruct (validate_content_length content) as [text|e]; [|now left].
  right. exists text. split; [reflexivity|].
  destruct (learn_predict w text) as [pred|e]; [|reflexivity].
  destruct (nth_error (pred_probs pred) (pred_index pred)); reflexivity.
Qed.

Lemma record_result_eval (note : pyval) (score : pyfloat) (w : world) :
  record_result note score w =
  (Ok tt,
   if record_enabled then
     match fs_fault w with
     | None =>
         {| record_file :=
              record_file w ++
              format_value note ++ [TAB] ++ py_repr (VFloat score) ++ [NEWLINE];
            fs_fault := fs_fault w;
            trace :=
              trace w ++
              [EvAppend
                 (format_value note ++ [TAB] ++ py_repr (VFloat score)
                  ++ [NEWLINE])] |}
     | Some e => log (EvStderr e) w
     end
   else w).
Proof.
  unfold record_result, try_except, append_record, print_record_failed, ret.
  destruct record_enabled; [|reflexivity].
  destruct (fs_fault w); reflexivity.
Qed.

(** The handler on a note that passed the checks. *)
Lemma predict_endpoint_valid (r : request) (note : pyval) (w : world) :
  note_of r note -> passes_validation note ->
  predict_endpoint r w =
  match predict note (log EvJson w) with
  | (Ok (label, score), w1) =>
      (Ok (answer label score), snd (record_result note score w1))
  | (Raise e, w1) =>
      (Ok {| status_code := 500; content := ErrorBody e |}, w1)
  end.
Proof.
  intros Hnote Hvalid.
  unfold predict_endpoint, try_except.
  rewrite (predict_endpoint_try_valid _ _ w Hnote Hvalid).
  unfold bind at 1.
  destruct (predict note (log EvJson w)) as [[[label score] | e] w1];
    [|reflexivity].
  unfold bind. cbn [fst snd]. rewrite !record_result_eval. cbn [fst snd].
  unfold lift, answer.
  destruct (JSONResponse (PredictionBody label score) 200); reflexivity.
Qed.

(** Every request either carries a note that passes the checks, or is
    answered with status 500 right after its body was read. *)
Lemma predict_endpoint_cases (r : request) (w : world) :
  (exists note, note_of r note /\ passes_validation note) \/
  (exists e,
      predict_endpoint r w =
      (Ok {| status_code := 500; content := ErrorBody e |}, log EvJson w)).
Proof.
  destruct (req_json r) as [data|e0] eqn:Hjson.
  2:{ right. exists e0. apply predict_endpoint_raise.
      unfold predict_endpoint_try, bind, request_json. now rewrite Hjson. }
  destruct (py_get data (of_ascii "note") (VStr [])) as [note|e] eqn:Hget.
  2:{ right. exists e. apply predict_endpoint_raise.
      unfold predict_endpoint_try, bind, request_json, lift.
      now rewrite Hjson, Hget. }
  assert (Hnote : note_of r note) by (exists data; auto).
  pose proof (predict_endpoint_try_note _ _ w Hnote) as Htry.
  unfold bind, lift, raise in Htry.
  destruct (truthy note) eqn:Ht; cbn [negb] in Htry.
  2:{ right. eexists. apply predict_endpoint_raise. exact Htry. }
  destruct (len note) as [n|e] eqn:Hn.
  2:{ right. eexists. apply predict_endpoint_raise. exact Htry. }
  destruct (n <? 3) eqn:Hn3.
  { right. eexists. apply predict_endpoint_raise. exact Htry. }
  destruct (is_invisible note) as [[|]|e] eqn:Hinv.
  1,3: right; eexists; apply predict_endpoint_raise; exact Htry.
  left. exists note. split; [exact Hnote|].
  split; [exact Ht|]. split; [|exact Hinv].
  exists n. split; [exact Hn|]. apply Z.ltb_ge in Hn3. exact Hn3.
Qed.

Lemma note_of_unique (r : request) (a b : pyval) :
  note_of r a -> note_of r b -> a = b.
Proof.
  intros [d1 [H1 G1]] [d2 [H2 G2]]. congruence.
Qed.

(** The handler answers an authorized request itself. *)
Lemma app_predict_endpoint (r : request) (w : world) :
  authorized r -> app r w = predict_endpoint r w.
Proof.
  intros Hauth. rewrite (app_authorized _ w Hauth).
  destruct (predict_endpoint_total r w) as [resp [w' H]]. now rewrite H.
Qed.

(** Any other request is turned away with a [detail], by [verify_token] or
    by the framework, and changes nothing. *)
Lemma app_unauthorized (r : request) (w : world) :
  ~ authorized r ->
  exists status d,
    app r w = (Ok {| status_code := status; content := DetailBody d |}, w).
Proof.
  intros Hno. unfold app, security.
  destruct (req_bearer r) as [c|] eqn:Hc; [|now eexists _, _].
  rewrite verify_token_stranger; [now eexists _, _|].
  intros Hin. apply Hno. now exists c.
Qed.

Lemma authorized_dec (r : request) : authorized r \/ ~ authorized r.
Proof.
  destruct (req_bearer r) as [c|] eqn:Hc.
  - destruct (contains c tokens) eqn:E.
    + left. exists c. split; [exact Hc | now apply contains_In].
    + right. intros [c' [Hc' Hin]].
      assert (c' = c) by congruence. subst c'.
      apply contains_In in Hin. congruence.
  - right. intros [c [Hc' _]]. congruence.
Qed.

Lemma validate_content_length_str (s : pystr) :
  validate_content_length (VStr s) =
  Ok (VStr (if max_content_length <? Z.of_nat (List.length s)
            then slice_to s max_content_length
            else s)).
Proof.
  unfold validate_content_length. cbn [len].
  destruct (max_content_length <? Z.of_nat (List.length s)); reflexivity.
Qed.

Lemma slice_to_nonneg {A} (l : list A) (m : Z) :
  0 <= m -> slice_to l m = firstn (Z.to_nat m) l.
Proof.
  intros H. unfold slice_to.
  destruct (0 <=? m) eqn:E; [reflexivity|].
  apply Z.leb_gt in E. lia.
Qed.

(** Slicing a sequence longer than the bound really shortens it. *)
Lemma slice_to_shorter {A} (l : list A) (m : Z) :
  m < Z.of_nat (List.length l) -> l <> [] ->
  (List.length (slice_to l m) < List.length l)%nat.
Proof.
  intros H Hne. unfold slice_to.
  assert (0 < List.length l)%nat.
  { destruct l; [contradiction | simpl; lia]. }
  destruct (0 <=? m) eqn:E; rewrite length_firstn.
  - apply Z.leb_le in E. lia.
  - apply Z.leb_gt in E. lia.
Qed.

(** ** Authorization *)


(** ** Validation *)

(** C3, as amended. A note of at least three characters none of which is
    printable in the sense of [str.isprintable] -- which holds the ASCII
    space printable, and every other whitespace character, the control
    characters and the non-printable Unicode characters not printable --
    is refused with "Note contains only invisible characters", before any
    call of the classifier. *)
Theorem C3_invisible_note_refused (r : request) (w : world) (s : pystr) :
  note_of r (VStr s) -> (3 <= List.length s)%nat ->
  forallb (fun c => negb (char_isprintable c)) s = true ->
  predict_endpoint_try r w =
  (Raise (HTTPException 400 "Note contains only invisible characters"),
   log EvJson w) /\
  model_inputs (trace (snd (predict_endpoint r w))) = model_inputs (trace w).
Proof.
  intros Hnote Hlen Hinv.
  pose proof (try_invisible_note _ w _ Hnote Hlen Hinv) as Htry.
  split; [exact Htry|].
  rewrite (predict_endpoint_raise _ _ _ _ Htry). now trace_norm.
Qed.

(** C8. When the body is an object without a [note] field, the handler
    takes the empty string for the note, without an error of its own, and
    that note is refused with "Note is required", the outcome being the one
    of a body whose [note] is the empty string. *)
Theorem C8_absent_note_is_empty_note
    (r : request) (w : world) (items : list (pystr * pyval)) :
  req_json r = Ok (VDict items) ->
  assoc (of_ascii "note") items = None ->
  py_get (VDict items) (of_ascii "note") (VStr []) = Ok (VStr []) /\
  predict_endpoint_try r w =
  (Raise (HTTPException 400 "Note is required"), log EvJson w) /\
  forall r0,
    req_json r0 = Ok (note_body []) ->
    predict_endpoint_try r0 w = predict_endpoint_try r w /\
    predict_endpoint r0 w = predict_endpoint r w.
Proof.
  intros Hjson Habsent.
  assert (Hget : py_get (VDict items) (of_ascii "note") (VStr []) =
                 Ok (VStr [])).
  { unfold py_get. now rewrite Habsent. }
  assert (Hnote : note_of r (VStr [])) by (exists (VDict items); auto).
  split; [exact Hget|].
  split; [now apply try_empty_note|].
  intros r0 H0.
  assert (Hnote0 : note_of r0 (VStr [])) by (exists (note_body []); auto).
  assert (E : predict_endpoint_try r0 w = predict_endpoint_try r w).
  { now rewrite (try_empty_note _ w Hnote), (try_empty_note _ w Hnote0). }
  split; [exact E|].
  unfold predict_endpoint, try_except. now rewrite E.
Qed.

(** ** Truncation *)

(** C4. With a maximum length that is not negative, a note that passes
    the checks -- which are decided on the note as submitted -- reaches the
    classifier as its first [max_content_length] characters when it is
    longer than that, and unchanged otherwise; this is the only call of the
    classifier. A note that does not pass them, as submitted, does not
    reach the classifier at all. *)
Theorem C4_model_gets_leading_characters (r : request) (w : world) (s : pystr) :
  0 <= max_content_length ->
  authorized r -> note_of r (VStr s) ->
  (passes_validation (VStr s) ->
   model_inputs (trace (snd (app r w))) =
   model_inputs (trace w) ++
   [VStr (if max_content_length <? Z.of_nat (List.length s)
          then firstn (Z.to_nat max_content_length) s
          else s)]) /\
  (~ passes_validation (VStr s) ->
   model_inputs (trace (snd (app r w))) = model_inputs (trace w)).
Proof.
  intros Hmax Hauth Hnote.
  rewrite (app_predict_endpoint _ w Hauth). split.
  - intros Hvalid.
    rewrite (predict_endpoint_valid _ _ w Hnote Hvalid), predict_eval.
    rewrite validate_content_length_str, (slice_to_nonneg _ _ Hmax).
    set (text := VStr _).
    assert (Hlog : model_inputs (trace (log (EvPredict text) (log EvJson w))) =
                   model_inputs (trace w) ++ [text]).
    { now trace_norm. }
    destruct (learn_predict (log EvJson w) text) as [pred|e]; [|exact Hlog].
    destruct (nth_error (pred_probs pred) (pred_index pred)) as [p|];
      [|exact Hlog].
    rewrite record_result_eval. cbn [snd].
    destruct record_enabled; [|exact Hlog].
    destruct (fs_fault (log (EvPredict text) (log EvJson w)));
      now trace_norm.
  - intros Hinvalid.
    destruct (predict_endpoint_cases r w) as [[note [Hn Hv]] | [e He]].
    + rewrite (note_of_unique _ _ _ Hn Hnote) in Hv. contradiction.
    + rewrite He. now trace_norm.
Qed.

(** ** The score *)

(** C5. When the response carries a prediction, its score is the
    classifier's probability of the predicted class formatted with four
    decimals: a multiple of 1/10^4 at most half such a unit away from the
    probability, and in the unit interval when the probability is. *)
Theorem C5_score_is_probability_rounded
    (r : request) (w w' : world) (status : Z)
    (label : pystr) (score : pyfloat) :
  app r w =
  (Ok {| status_code := status; content := PredictionBody label score |}, w') ->
  exists text pred p,
    learn_predict (log EvJson w) text = Ok pred /\
    nth_error (pred_probs pred) (pred_index pred) = Some p /\
    label = pred_label pred /\
    score = float_of_fixed4 (format_4f p) /\
    nearest_4dp p score /\
    (in_unit_interval p -> in_unit_interval score).
Proof.
  intros Happ.
  destruct (authorized_dec r) as [Hauth | Hno].
  2:{ destruct (app_unauthorized r w Hno) as [st [d Hd]]. congruence. }
  rewrite (app_predict_endpoint _ w Hauth) in Happ.
  destruct (predict_endpoint_cases r w) as [[note [Hnote Hvalid]] | [e He]];
    [|congruence].
  rewrite (predict_endpoint_valid _ _ w Hnote Hvalid) in Happ.
  destruct (predict note (log EvJson w)) as [[[label0 score0] | e] w1] eqn:Hp;
    [|congruence].
  destruct (predict_ok Hp) as [text [pred [p [Hv [Hl [Hn [-> [-> _]]]]]]]].
  unfold answer, JSONResponse in Happ.
  destruct (is_finite (float_of_fixed4 (format_4f p))) eqn:Hfin;
    [|congruence].
  inversion Happ; subst.
  exists text, pred, p. repeat split; try assumption.
  - destruct p; try discriminate. apply format_4f_nearest.
  - apply format_4f_unit_interval.
Qed.

(** ** Recording *)


(** C10. For a note longer than the maximum length, the line appended to
    the record file holds the whole note as submitted, while the
    classifier was given a strictly shorter text. *)
Theorem C10_record_keeps_whole_note
    (r : request) (w w1 : world) (s : pystr) (label : pystr) (score : pyfloat) :
  authorized r -> note_of r (VStr s) -> passes_validation (VStr s) ->
  max_content_length < Z.of_nat (List.length s) ->
  predict (VStr s) (log EvJson w) = (Ok (label, score), w1) ->
  record_enabled = true -> fs_fault w = None ->
  record_file (snd (app r w)) =
  record_file w ++ s ++ [TAB] ++ py_repr (VFloat score) ++ [NEWLINE] /\
  model_inputs (trace (snd (app r w))) =
  model_inputs (trace w) ++ [VStr (slice_to s max_content_length)] /\
  (List.length (slice_to s max_content_length) < List.length s)%nat.
Proof.
  intros Hauth Hnote Hvalid Hlong Hp Hrec Hok.
  rewrite (app_predict_endpoint _ w Hauth).
  rewrite (predict_endpoint_valid _ _ w Hnote Hvalid), Hp.
  rewrite record_result_eval, Hrec. cbn [snd].
  destruct (predict_ok Hp) as [text [pred [p [Hv [_ [_ [_ [_ Hw1]]]]]]]].
  rewrite validate_content_length_str in Hv.
  apply Z.ltb_lt in Hlong. rewrite Hlong in Hv. apply Z.ltb_lt in Hlong.
  inversion Hv; subst text. subst w1. cbn [fs_fault log]. rewrite Hok.
  cbn [record_file trace format_value].
  split; [reflexivity|]. split.
  - now trace_norm.
  - apply slice_to_shorter; [exact Hlong|].
    apply passes_validation_str in Hvalid. destruct Hvalid as [H3 _].
    intros ->. simpl in H3. lia.
Qed.

(** ** The invariant of the pipeline *)

(** C7. If a request made the classifier run, or was answered with a
    prediction, then it was authorized and its note passed the three
    checks: it was not empty, had at least three items, and was not made
    of non-printable items only. *)
Theorem C7_prediction_only_after_validation (r : request) (w : world) :
  (model_inputs (trace (snd (app r w))) <> model_inputs (trace w) \/
   exists status label score,
     fst (app r w) =
     Ok {| status_code := status; content := PredictionBody label score |}) ->
  authorized r /\
  exists note,
    note_of r note /\
    truthy note = true /\
    (exists n, len note = Ok n /\ 3 <= n) /\
    is_invisible note = Ok false.
Proof.
  intros H.
  destruct (authorized_dec r) as [Hauth | Hno].
  2:{ destruct (app_unauthorized r w Hno) as [st0 [d Hd]]. rewrite Hd in H.
      destruct H as [H | [st [l [sc H]]]];
        [now contradiction H | discriminate]. }
  split; [exact Hauth|].
  destruct (predict_endpoint_cases r w) as [[note [Hnote Hvalid]] | [e He]].
  - exists note. split; [exact Hnote | exact Hvalid].
  - rewrite (app_predict_endpoint _ w Hauth), He in H. exfalso.
    destruct H as [H | [st [l [sc H]]]]; [|discriminate].
    apply H. now trace_norm.
Qed.

(** ** Determinism *)

(** C9. With a classifier that answers by its input alone, two runs of
    [predict] on the same note give the same label and score, or fail
    alike, in whatever state they start. *)
Theorem C9_predict_repeatable (note : pyval) (w1 w2 : world) :
  deterministic ->
  fst (predict note w1) = fst (predict note w2).
Proof.
  intros Hdet. rewrite !predict_eval.
  destruct (validate_content_length note) as [text|e]; [|reflexivity].
  rewrite (Hdet w1 w2 text).
  destruct (learn_predict w2 text) as [pred|e]; [|reflexivity].
  destruct (nth_error (pred_probs pred) (pred_index pred)); reflexivity.
Qed.

(** ** Further properties of the route *)

(** X1. Every request is answered: no exception leaves the route. A
    request that carries a credential gets status 200, 403 or 500, never
    400, and the status tells the payload: a prediction with 200, the
    [detail] "Invalid or missing token" with 403, an [error] with 500. A
    request without a credential gets the refusal of the framework. *)
Theorem X1_every_request_is_answered (r : request) (w : world) :
  exists resp w',
    app r w = (Ok resp, w') /\
    ((req_bearer r = None /\
      resp = {| status_code := fst (bearer_refusal r);
                content := DetailBody (snd (bearer_refusal r)) |}) \/
     (req_bearer r <> None /\
      ((status_code resp = 200 /\
        exists label score, content resp = PredictionBody label score) \/
       (status_code resp = 403 /\
        content resp = DetailBody "Invalid or missing token") \/
       (status_code resp = 500 /\ exists e, content resp = ErrorBody e)))).
Proof.
  destruct (req_bearer r) as [c|] eqn:Hc.
  2:{ eexists _, _. split; [|left; split; reflexivity].
      unfold app, security. now rewrite Hc. }
  assert (Hsome : Some c <> None) by discriminate.
  destruct (authorized_dec r) as [Hauth | Hno].
  2:{ eexists _, _. split; [|right; split; [exact Hsome|]].
      - unfold app, security. rewrite Hc.
        rewrite verify_token_stranger; [reflexivity|].
        intros Hin. apply Hno. now exists c.
      - right. left. split; reflexivity. }
  cut (exists resp w',
          app r w = (Ok resp, w') /\
          ((status_code resp = 200 /\
            exists label score, content resp = PredictionBody label score) \/
           (status_code resp = 500 /\ exists e, content resp = ErrorBody e))).
  { intros [resp [w' [Happ Hst]]]. exists resp, w'. split; [exact Happ|].
    right. split; [exact Hsome|]. destruct Hst as [H | H]; auto. }
  rewrite (app_predict_endpoint _ w Hauth).
  destruct (predict_endpoint_cases r w) as [[note [Hnote Hvalid]] | [e He]].
  2:{ eexists _, _. split; [exact He|]. right. simpl. eauto. }
  rewrite (predict_endpoint_valid _ _ w Hnote Hvalid).
  destruct (predict note (log EvJson w)) as [[[label score] | e] w1].
  2:{ eexists _, _. split; [reflexivity|]. right. simpl. eauto. }
  eexists _, _. split; [reflexivity|].
  unfold answer, JSONResponse.
  destruct (is_finite score); simpl; eauto 8.
Qed.


(** X3. When the classifier raises, the request is answered with status
    500 and the exception as its [error]; nothing is written to the record
    file or to the error stream. *)
Theorem X3_classifier_failure_answered_500
    (r : request) (w : world) (note text : pyval) (e : exn) :
  authorized r -> note_of r note -> passes_validation note ->
  validate_content_length note = Ok text ->
  learn_predict (log EvJson w) text = Raise e ->
  app r w =
  (Ok {| status_code := 500; content := ErrorBody e |},
   log (EvPredict text) (log EvJson w)).
Proof.
  intros Hauth Hnote Hvalid Hv He.
  rewrite (app_predict_endpoint _ w Hauth).
  rewrite (predict_endpoint_valid _ _ w Hnote Hvalid), predict_eval, Hv, He.
  reflexivity.
Qed.

(** X4. When the classifier's index of the predicted class lies outside its
    list of probabilities, the request is answered with status 500 and
    [IndexError]; nothing is recorded. *)
Theorem X4_index_out_of_range_answered_500
    (r : request) (w : world) (note text : pyval) (pred : prediction) :
  authorized r -> note_of r note -> passes_validation note ->
  validate_content_length note = Ok text ->
  learn_predict (log EvJson w) text = Ok pred ->
  (List.length (pred_probs pred) <= pred_index pred)%nat ->
  app r w =
  (Ok {| status_code := 500; content := ErrorBody IndexError |},
   log (EvPredict text) (log EvJson w)).
Proof.
  intros Hauth Hnote Hvalid Hv Hp Hlen.
  rewrite (app_predict_endpoint _ w Hauth).
  rewrite (predict_endpoint_valid _ _ w Hnote Hvalid), predict_eval, Hv, Hp.
  apply nth_error_None in Hlen. rewrite Hlen. reflexivity.
Qed.

(** X5. A probability that is not finite is recorded all the same -- the
    line is written before the response is built -- and the request is then
    answered with status 500, the payload being refused. *)
Theorem X5_score_not_finite_recorded_then_500
    (r : request) (w : world) (note text : pyval) (pred : prediction)
    (p : pyfloat) :
  authorized r -> note_of r note -> passes_validation note ->
  validate_content_length note = Ok text ->
  learn_predict (log EvJson w) text = Ok pred ->
  nth_error (pred_probs pred) (pred_index pred) = Some p ->
  is_finite p = false ->
  record_enabled = true -> fs_fault w = None ->
  fst (app r w) = Ok {| status_code := 500; content := ErrorBody ValueError |} /\
  record_file (snd (app r w)) =
  record_file w ++
  format_value note ++ [TAB] ++ py_repr (VFloat p) ++ [NEWLINE].
Proof.
  intros Hauth Hnote Hvalid Hv Hp Hn Hfin Hrec Hok.
  rewrite (app_predict_endpoint _ w Hauth).
  rewrite (predict_endpoint_valid _ _ w Hnote Hvalid), predict_eval, Hv, Hp, Hn.
  rewrite record_result_eval, Hrec. cbn [fs_fault log fst snd]. rewrite Hok.
  assert (Hsame : float_of_fixed4 (format_4f p) = p).
  { destruct p; [discriminate | reflexivity ..]. }
  rewrite Hsame. unfold answer, JSONResponse. rewrite Hfin.
  split; reflexivity.
Qed.

(** X6. A note that is a number, a boolean or [null] never reaches the
    classifier: when it is false ([null], [false], zero) it is refused like
    the empty string, otherwise taking its length raises [TypeError]; the
    answer has status 500 in both cases. *)
Theorem X6_note_without_length (r : request) (w : world) (note : pyval) :
  authorized r -> note_of r note ->
  match note with
  | VNone | VBool _ | VInt _ | VFloat _ => True
  | _ => False
  end ->
  app r w =
  (Ok {| status_code := 500;
         content :=
           ErrorBody
             (if truthy note then TypeError
              else HTTPException 400 "Note is required") |},
   log EvJson w).
Proof.
  intros Hauth Hnote Hkind.
  rewrite (app_predict_endpoint _ w Hauth).
  apply predict_endpoint_raise.
  rewrite (predict_endpoint_try_note _ _ w Hnote).
  unfold bind, lift, raise.
  destruct note; try contradiction;
    destruct (truthy _); reflexivity.
Qed.

(** ** Notes that are not strings *)

(** X7. The handler does not ask for a string: a list that passes the
    checks -- it has three items or more, and a printable string comes
    before any item that is not a string -- reaches the classifier as a
    list, cut to its first [max_content_length] items when it is longer. *)
Theorem X7_list_note_reaches_classifier
    (r : request) (w : world) (l : list pyval) :
  0 <= max_content_length ->
  authorized r -> note_of r (VList l) -> passes_validation (VList l) ->
  model_inputs (trace (snd (app r w))) =
  model_inputs (trace w) ++
  [VList (if max_content_length <? Z.of_nat (List.length l)
          then firstn (Z.to_nat max_content_length) l
          else l)].
Proof.
  intros Hmax Hauth Hnote Hvalid.
  rewrite (app_predict_endpoint _ w Hauth).
  rewrite (predict_endpoint_valid _ _ w Hnote Hvalid), predict_eval.
  assert (Hv : validate_content_length (VList l) =
               Ok (VList (if max_content_length <? Z.of_nat (List.length l)
                          then firstn (Z.to_nat max_content_length) l
                          else l))).
  { unfold validate_content_length. cbn [len].
    destruct (max_content_length <? Z.of_nat (List.length l)); [|reflexivity].
    cbn [py_slice_to]. now rewrite (slice_to_nonneg _ _ Hmax). }
  rewrite Hv. set (text := VList _).
  destruct (learn_predict (log EvJson w) text) as [pred|e];
    [|now trace_norm].
  destruct (nth_error (pred_probs pred) (pred_index pred)) as [p|];
    [|now trace_norm].
  rewrite record_result_eval.
  destruct record_enabled; [|now trace_norm].
  cbn [fs_fault log snd].
  destruct (fs_fault w); now trace_norm.
Qed.

(** X8. An object as note passes the checks on its keys; with more keys
    than [max_content_length] it cannot be cut, and the request is answered
    with status 500 without a call of the classifier. *)
Theorem X8_long_dict_note_answered_500
    (r : request) (w : world) (d : list (pystr * pyval)) :
  authorized r -> note_of r (VDict d) -> passes_validation (VDict d) ->
  max_content_length < Z.of_nat (List.length d) ->
  app r w =
  (Ok {| status_code := 500; content := ErrorBody TypeError |}, log EvJson w).
Proof.
  intros Hauth Hnote Hvalid Hlong.
  rewrite (app_predict_endpoint _ w Hauth).
  rewrite (predict_endpoint_valid _ _ w Hnote Hvalid), predict_eval.
  unfold validate_content_length. cbn [len].
  apply Z.ltb_lt in Hlong. rewrite Hlong. reflexivity.
Qed.

(** ** Truncation *)

(** X9. With a maximum length that is not negative, truncation of a string
    never fails; it keeps a prefix of the text, of length the smaller of
    the two lengths, and truncating again changes nothing. *)
Theorem X9_truncation_keeps_a_prefix (s : pystr) :
  0 <= max_content_length ->
  exists t rest,
    validate_content_length (VStr s) = Ok (VStr t) /\
    s = t ++ rest /\
    List.length t = Nat.min (List.length s) (Z.to_nat max_content_length) /\
    validate_content_length (VStr t) = Ok (VStr t).
Proof.
  intros Hmax. rewrite validate_content_length_str.
  rewrite (slice_to_nonneg _ _ Hmax).
  destruct (max_content_length <? Z.of_nat (List.length s)) eqn:E.
  - apply Z.ltb_lt in E.
    exists (firstn (Z.to_nat max_content_length) s),
           (skipn (Z.to_nat max_content_length) s).
    split; [reflexivity|]. split; [now rewrite firstn_skipn|].
    assert (Hlen : List.length (firstn (Z.to_nat max_content_length) s) =
                   Z.to_nat max_content_length).
    { rewrite length_firstn. lia. }
    split; [rewrite Hlen; lia|].
    rewrite validate_content_length_str, Hlen.
    destruct (max_content_length <? Z.of_nat (Z.to_nat max_content_length)) eqn:E';
      [apply Z.ltb_lt in E'; lia | reflexivity].
  - apply Z.ltb_ge in E.
    exists s, []. split; [reflexivity|]. split; [now rewrite app_nil_r|].
    split; [lia|].
    rewrite validate_content_length_str.
    destruct (max_content_length <? Z.of_nat (List.length s)) eqn:E';
      [apply Z.ltb_lt in E'; lia | reflexivity].
Qed.

(** X10. With a negative maximum length every string counts as too long and
    loses its last [-max_content_length] characters: nothing is left of a
    string that short, and no string but the empty one goes through
    whole. *)
Theorem X10_negative_maximum_drops_the_tail (s : pystr) :
  max_content_length < 0 ->
  validate_content_length (VStr s) =
  Ok (VStr (firstn (List.length s - Z.to_nat (- max_content_length)) s)) /\
  (s <> [] ->
   validate_content_length (VStr s) <> Ok (VStr s)).
Proof.
  intros Hneg.
  assert (Hv : validate_content_length (VStr s) =
               Ok (VStr (firstn (List.length s - Z.to_nat (- max_content_length)) s))).
  { rewrite validate_content_length_str.
    destruct (max_content_length <? Z.of_nat (List.length s)) eqn:E;
      [|apply Z.ltb_ge in E; lia].
    unfold slice_to.
    destruct (0 <=? max_content_length) eqn:E0; [apply Z.leb_le in E0; lia|].
    do 3 f_equal. lia. }
  split; [exact Hv|].
  intros Hne Heq. rewrite Hv in Heq. inversion Heq as [Hs].
  apply (f_equal (@List.length char)) in Hs.
  rewrite length_firstn in Hs.
  assert (0 < List.length s)%nat by (destruct s; [contradiction | simpl; lia]).
  lia.
Qed.

(** X11. The checks run before truncation, so the text given to the
    classifier need not pass them: when the first [max_content_length]
    characters of a note are all non-printable and a printable one follows,
    the note is accepted and the classifier receives the invisible prefix
    alone. *)
Theorem X11_invisible_prefix_reaches_classifier
    (r : request) (w : world) (p q : pystr) :
  0 <= max_content_length ->
  List.length p = Z.to_nat max_content_length ->
  forallb (fun c => negb (char_isprintable c)) p = true ->
  existsb char_isprintable q = true ->
  (3 <= List.length (p ++ q))%nat ->
  authorized r -> note_of r (VStr (p ++ q)) ->
  model_inputs (trace (snd (app r w))) = model_inputs (trace w) ++ [VStr p] /\
  is_invisible (VStr p) = Ok true.
Proof.
  intros Hmax Hlen Hp Hq H3 Hauth Hnote.
  assert (Hvalid : passes_validation (VStr (p ++ q))).
  { apply passes_validation_str. split; [exact H3|].
    rewrite existsb_app, Hq. apply orb_true_r. }
  assert (Hq0 : (0 < List.length q)%nat).
  { destruct q; [discriminate | simpl; lia]. }
  split.
  - rewrite (app_predict_endpoint _ w Hauth).
    rewrite (predict_endpoint_valid _ _ w Hnote Hvalid), predict_eval.
    rewrite validate_content_length_str, (slice_to_nonneg _ _ Hmax).
    rewrite length_app.
    destruct (max_content_length <? Z.of_nat (List.length p + List.length q)) eqn:E;
      [|apply Z.ltb_ge in E; lia].
    rewrite <- Hlen, firstn_app, firstn_all, Nat.sub_diag. cbn [firstn].
    rewrite app_nil_r.
    destruct (learn_predict (log EvJson w) (VStr p)) as [pred|e];
      [|now trace_norm].
    destruct (nth_error (pred_probs pred) (pred_index pred)) as [x|];
      [|now trace_norm].
    rewrite record_result_eval.
    destruct record_enabled; [|now trace_norm].
    cbn [fs_fault log snd].
    destruct (fs_fault w); now trace_norm.
  - rewrite is_invisible_str, (existsb_none _ _ Hp). reflexivity.
Qed.

(** ** The invisibility test *)

(** X12. On strings [is_invisible] never raises; it holds of a string
    exactly when none of its characters is printable, hence of the empty
    string, and of a concatenation exactly when it holds of both parts. *)
Theorem X12_is_invisible_on_strings (s t : pystr) :
  (is_invisible (VStr s) = Ok true <->
   forall c, In c s -> char_isprintable c = false) /\
  (is_invisible (VStr s) = Ok false <->
   exists c, In c s /\ char_isprintable c = true) /\
  is_invisible (VStr []) = Ok true /\
  (is_invisible (VStr (s ++ t)) = Ok true <->
   is_invisible (VStr s) = Ok true /\ is_invisible (VStr t) = Ok true).
Proof.
  assert (Hall : forall u,
             is_invisible (VStr u) = Ok true <->
             forall c, In c u -> char_isprintable c = false).
  { intros u. rewrite is_invisible_str. split.
    - intros H c Hc. destruct (char_isprintable c) eqn:E; [|reflexivity].
      assert (Hex : existsb char_isprintable u = true)
        by (apply existsb_exists; now exists c).
      rewrite Hex in H. discriminate.
    - intros H. destruct (existsb char_isprintable u) eqn:E; [|reflexivity].
      apply existsb_exists in E. destruct E as [c [Hc Hp]].
      rewrite (H c Hc) in Hp. discriminate. }
  split; [apply Hall|]. split; [|split].
  - rewrite is_invisible_str. split.
    + intros H. destruct (existsb char_isprintable s) eqn:E; [|discriminate].
      apply existsb_exists in E. exact E.
    + intros H. apply existsb_exists in H. now rewrite H.
  - reflexivity.
  - rewrite !Hall. split.
    + intros H. split; intros c Hc; apply H, in_or_app; auto.
    + intros [Hs Ht] c Hc. apply in_app_or in Hc. destruct Hc; auto.
Qed.

(** ** More on rounding *)

(** On a tie the even neighbour is taken. *)
Lemma round_half_even_tie (q : Q) :
  2 * (Qnum q mod Zpos (Qden q)) = Zpos (Qden q) ->
  Z.even (round_half_even q) = true.
Proof.
  intros Htie. unfold round_half_even. rewrite Htie, Z.compare_refl.
  destruct (Z.even (Qnum q / Zpos (Qden q))) eqn:E; [exact E|].
  rewrite Z.even_add, E. reflexivity.
Qed.

(** The rounded value in terms of the quotient and the remainder, the tie
    included. *)
Lemma round_half_even_bounds (q : Q) :
  (2 * round_half_even q - 1) * Zpos (Qden q) <= 2 * Qnum q /\
  2 * Qnum q <= (2 * round_half_even q + 1) * Zpos (Qden q) /\
  ((2 * round_half_even q - 1) * Zpos (Qden q) = 2 * Qnum q ->
   Z.even (round_half_even q) = true) /\
  (2 * Qnum q = (2 * round_half_even q + 1) * Zpos (Qden q) ->
   Z.even (round_half_even q) = true).
Proof.
  pose proof (round_half_even_tie q) as Htie.
  destruct (round_half_even_spec q) as [n [r [Ha [Hr [Hk [Hlo Hhi]]]]]].
  assert (Hmod : Qnum q mod Zpos (Qden q) = r).
  { symmetry. apply (Z.mod_unique_pos _ _ n); [exact Hr | exact Ha]. }
  rewrite Hmod in Htie.
  remember (Zpos (Qden q)) as b eqn:Eb.
  assert (Hb : 0 < b) by (subst b; lia). clear Eb.
  remember (round_half_even q) as k eqn:Ek. clear Ek.
  rewrite Ha. clear Ha Hmod.
  destruct Hk as [Hk | Hk]; subst k.
  - specialize (Hlo eq_refl).
    repeat split; try nia; intros H; first [apply Htie; nia | exfalso; nia].
  - specialize (Hhi eq_refl).
    repeat split; try nia; intros H; first [apply Htie; nia | exfalso; nia].
Qed.

(** A count of units is the rounding of the decimal it denotes. *)
Lemma round_half_even_units (k : Z) :
  round_half_even (Qmult (Qmake k 10000) (inject_Z 10000)) = k.
Proof.
  unfold round_half_even.
  change (Qnum (Qmult (Qmake k 10000) (inject_Z 10000))) with (k * 10000).
  change (Zpos (Qden (Qmult (Qmake k 10000) (inject_Z 10000)))) with 10000.
  rewrite Z.mod_mul, Z.div_mul by lia. reflexivity.
Qed.

(** X13. The score of a probability of the unit interval is not changed by
    a second pass through [predict]'s normalisation: it is one of the 10001
    values 0.0000 to 1.0000, and formatting it gives back its text. *)
Theorem X13_score_of_probability_is_stable (p : pyfloat) :
  in_unit_interval p ->
  exists k,
    0 <= k <= 10000 /\
    format_4f p = F4 k /\
    format_4f (float_of_fixed4 (format_4f p)) = F4 k /\
    float_of_fixed4 (format_4f (float_of_fixed4 (format_4f p))) =
    float_of_fixed4 (format_4f p).
Proof.
  intros Hp. pose proof (format_4f_unit_interval p Hp) as Hs.
  destruct p as [q | | |]; try contradiction.
  exists (round_half_even (Qmult q (inject_Z 10000))).
  cbn [format_4f float_of_fixed4] in *.
  rewrite round_half_even_units.
  destruct Hs as [H0 H1]. unfold Qle in H0, H1. cbn [Qnum Qden] in H0, H1.
  repeat split; try reflexivity; lia.
Qed.

(** X14. Rounding keeps the order: of two finite probabilities, the larger
    never gets the smaller score. *)
Theorem X14_rounding_is_monotone (p q : Q) :
  Qle p q ->
  exists a b,
    float_of_fixed4 (format_4f (Finite p)) = Finite (Qmake a 10000) /\
    float_of_fixed4 (format_4f (Finite q)) = Finite (Qmake b 10000) /\
    a <= b.
Proof.
  intros Hpq.
  exists (round_half_even (Qmult p (inject_Z 10000))),
         (round_half_even (Qmult q (inject_Z 10000))).
  split; [reflexivity|]. split; [reflexivity|].
  pose proof (round_half_even_bounds (Qmult p (inject_Z 10000)))
    as [Hp1 [_ [Hp3 _]]].
  pose proof (round_half_even_bounds (Qmult q (inject_Z 10000)))
    as [_ [Hq2 [_ Hq4]]].
  set (a := round_half_even (Qmult p (inject_Z 10000))) in *.
  set (b := round_half_even (Qmult q (inject_Z 10000))) in *.
  destruct p as [n1 d1], q as [n2 d2]. unfold Qle in Hpq. cbn [Qnum Qden] in Hpq.
  change (Qden (Qmult (Qmake n1 d1) (inject_Z 10000))) with (d1 * 1)%positive in *.
  change (Qnum (Qmult (Qmake n1 d1) (inject_Z 10000))) with (n1 * 10000) in *.
  change (Qden (Qmult (Qmake n2 d2) (inject_Z 10000))) with (d2 * 1)%positive in *.
  change (Qnum (Qmult (Qmake n2 d2) (inject_Z 10000))) with (n2 * 10000) in *.
  rewrite Pos.mul_1_r in *.
  remember (Zpos d1) as x eqn:Ex. assert (Hx : 0 < x) by (subst x; lia).
  remember (Zpos d2) as y eqn:Ey. assert (Hy : 0 < y) by (subst y; lia).
  clear Ex Ey. clearbody a b.
  destruct (Z.le_gt_cases a b) as [Hle | Hgt]; [exact Hle|]. exfalso.
  assert (H1 : (2 * a - 1) * x * y <= 2 * (n1 * 10000) * y) by nia.
  assert (H2 : 2 * (n1 * 10000) * y <= 2 * (n2 * 10000) * x) by nia.
  assert (H3 : 2 * (n2 * 10000) * x <= (2 * b + 1) * y * x) by nia.
  assert (Hab : a = b + 1).
  { assert ((2 * a - 1) * (x * y) <= (2 * b + 1) * (x * y)) by nia.
    assert (0 < x * y) by nia.
    assert (2 * a - 1 <= 2 * b + 1) by nia. lia. }
  subst a.
  assert (E1 : (2 * (b + 1) - 1) * x = 2 * (n1 * 10000)) by nia.
  assert (E2 : 2 * (n2 * 10000) = (2 * b + 1) * y) by nia.
  specialize (Hp3 E1). specialize (Hq4 E2).
  rewrite Z.even_add, Hq4 in Hp3. discriminate.
Qed.

(** ** Bodies and verdicts *)

(** X19. A body on which [request.json()] raises is answered with status
    500 and the exception raised, whichever it is; a body that parses to
    something else than an object is answered with status 500 and the
    [AttributeError] of [data.get]. Both happen right after the body was
    read; the classifier is not called and nothing is written. *)
Theorem X19_unusable_body_answered_500 (r : request) (w : world) :
  authorized r ->
  match req_json r with Ok (VDict _) => False | _ => True end ->
  app r w =
  (Ok {| status_code := 500;
         content :=
           ErrorBody
             (match req_json r with
              | Raise e => e
              | Ok _ => AttributeError
              end) |},
   log EvJson w).
Proof.
  intros Hauth Hbody.
  rewrite (app_predict_endpoint _ w Hauth).
  apply predict_endpoint_raise.
  unfold predict_endpoint_try, bind, request_json, lift.
  destruct (req_json r) as [data|e]; [|reflexivity].
  destruct data; try reflexivity. contradiction.
Qed.

(** X20. A string that does not pass the checks gets the verdict of the
    first check it fails, in the order empty, short, invisible -- so a note
    of one or two non-printable characters is "too short", not
    "invisible" -- and the answer has status 500 with that verdict as its
    [error]. *)
Theorem X20_first_failed_check_decides (r : request) (w : world) (s : pystr) :
  authorized r -> note_of r (VStr s) ->
  ~ passes_validation (VStr s) ->
  app r w =
  (Ok {| status_code := 500;
         content :=
           ErrorBody
             (HTTPException 400
                (if Nat.eqb (List.length s) 0 then "Note is required"
                 else if Nat.ltb (List.length s) 3 then "Note is too short"
                 else "Note contains only invisible characters")) |},
   log EvJson w).
Proof.
  intros Hauth Hnote Hinvalid.
  apply rejected_note_response; [exact Hauth|].
  destruct s as [|a [|b [|c s]]].
  - now apply try_empty_note.
  - apply (try_short_note _ _ [a]); [exact Hnote | discriminate | simpl; lia].
  - apply (try_short_note _ _ [a; b]);
      [exact Hnote | discriminate | simpl; lia].
  - change (Nat.eqb (List.length (a :: b :: c :: s)) 0) with false.
    change (Nat.ltb (List.length (a :: b :: c :: s)) 3) with false.
    cbv iota.
    apply (try_invisible_note _ _ (a :: b :: c :: s));
      [exact Hnote | simpl; lia|].
    destruct (existsb char_isprintable (a :: b :: c :: s)) eqn:E.
    + exfalso. apply Hinvalid. apply passes_validation_str.
      split; [simpl; lia | exact E].
    + clear - E. induction (a :: b :: c :: s) as [|x l IH]; [reflexivity|].
      simpl in E. apply orb_false_iff in E. destruct E as [Hx Hl].
      simpl. rewrite Hx. simpl. auto.
Qed.

End Server.

(** * The pipeline on the concrete installation

    The route is run with the token ["abc123"], recording enabled and the
    classifier [demo_learn]. *)

Lemma demo_authorized (data : pyval) :
  authorized demo_tokens (post "abc123" data).
Proof.
  exists (of_ascii "abc123"). split; [reflexivity | now left].
Qed.

Lemma demo_note_of (token : string) (note : pystr) :
  note_of (post token (note_body note)) (VStr note).
Proof.
  exists (note_body note). split; reflexivity.
Qed.

Lemma demo_note_valid : passes_validation (VStr demo_note).
Proof.
  apply passes_validation_str.
  split; [simpl; lia | vm_compute; reflexivity].
Qed.

(** The scenario of the specification: 0.9234567 is reported as 0.9235,
    and the record file gets the line of the note and that score. *)
Example scenario_great_service :
  app demo_tokens true 3000 demo_learn demo_repr refusal_403
    (post "abc123" (note_body demo_note)) empty_world =
  (Ok {| status_code := 200; content := PredictionBody demo_label demo_score |},
   {| record_file := demo_note ++ [TAB] ++ of_ascii "0.9235" ++ [NEWLINE];
      fs_fault := None;
      trace :=
        [EvJson; EvPredict (VStr demo_note);
         EvAppend (demo_note ++ [TAB] ++ of_ascii "0.9235" ++ [NEWLINE])] |}).
Proof. vm_compute. reflexivity. Qed.

(** Ties go to the even neighbour: 1/32 = 0.03125 is formatted as 0.0312,
    and 3/32 = 0.09375 as 0.0938. *)
Example format_4f_tie :
  format_4f (Finite (Qmake 1 32)) = F4 312 /\
  format_4f (Finite (Qmake 3 32)) = F4 938.
Proof. split; reflexivity. Qed.

(** A body that is not an object has no [get]: the handler answers 500. *)
Example body_not_an_object :
  app demo_tokens true 3000 demo_learn demo_repr refusal_403
    (post "abc123" (VList [])) empty_world =
  (Ok {| status_code := 500; content := ErrorBody AttributeError |},
   log EvJson empty_world).
Proof. vm_compute. reflexivity. Qed.

(** C1. The code at notes that fail a check: an empty note, a note of two
    characters, and a note of three zero-width spaces are each answered with
    status 500, not 400; the exception with status 400 and the message of
    the check is raised, but the catch-all [except] of the handler wraps it
    into the payload of a 500 response. The classifier is not called. *)
Theorem C1_failed_check_answered_500 :
  app demo_tokens true 3000 demo_learn demo_repr refusal_403
    (post "abc123" (note_body [])) empty_world =
  (Ok {| status_code := 500;
         content := ErrorBody (HTTPException 400 "Note is required") |},
   log EvJson empty_world) /\
  app demo_tokens true 3000 demo_learn demo_repr refusal_403
    (post "abc123" (note_body (of_ascii "ok"))) empty_world =
  (Ok {| status_code := 500;
         content := ErrorBody (HTTPException 400 "Note is too short") |},
   log EvJson empty_world) /\
  app demo_tokens true 3000 demo_learn demo_repr refusal_403
    (post "abc123" (note_body [8203; 8203; 8203]%N)) empty_world =
  (Ok {| status_code := 500;
         content :=
           ErrorBody
             (HTTPException 400 "Note contains only invisible characters") |},
   log EvJson empty_world).
Proof. repeat split; vm_compute; reflexivity. Qed.



(** Three spaces: whitespace only, yet not invisible for the code, which
    goes on to call the classifier. *)
Lemma C3_counterexample_three_spaces :
  (3 <= List.length (of_ascii "   "))%nat /\
  forallb spec_nonprintable (of_ascii "   ") = true /\
  is_invisible (VStr (of_ascii "   ")) = Ok false /\
  fst (predict_endpoint_try true 3000 demo_learn demo_repr
         (post "abc123" (note_body (of_ascii "   "))) empty_world) <>
  Raise (HTTPException 400 "Note contains only invisible characters") /\
  model_inputs
    (trace (snd (app demo_tokens true 3000 demo_learn demo_repr refusal_403
                   (post "abc123" (note_body (of_ascii "   ")))
                   empty_world))) =
  [VStr (of_ascii "   ")].
Proof.
  split; [vm_compute; lia|].
  split; [vm_compute; reflexivity|].
  split; [vm_compute; reflexivity|].
  split; [vm_compute; discriminate | vm_compute; reflexivity].
Defined.

(** A tab, a no-break space and a zero-width space. *)
Lemma C3_witness :
  predict_endpoint_try true 3000 demo_learn demo_repr
    (post "abc123" (note_body [9; 160; 8203]%N)) empty_world =
  (Raise (HTTPException 400 "Note contains only invisible characters"),
   log EvJson empty_world) /\
  model_inputs
    (trace (snd (predict_endpoint true 3000 demo_learn demo_repr
                   (post "abc123" (note_body [9; 160; 8203]%N))
                   empty_world))) =
  model_inputs (trace empty_world).
Proof.
  apply (C3_invisible_note_refused true 3000 demo_learn demo_repr
           (post "abc123" (note_body [9; 160; 8203]%N)) empty_world
           [9; 160; 8203]%N).
  - apply demo_note_of.
  - simpl. lia.
  - vm_compute. reflexivity.
Defined.

(** With a maximum of two characters, ["abc"] is long enough to pass the
    length check, and the classifier receives ["ab"]. *)
Lemma C4_witness :
  model_inputs
    (trace (snd (app demo_tokens true 2 demo_learn demo_repr refusal_403
                   (post "abc123" (note_body (of_ascii "abc")))
                   empty_world))) =
  model_inputs (trace empty_world) ++ [VStr (of_ascii "ab")].
Proof.
  apply (proj1 (C4_model_gets_leading_characters
                  demo_tokens true 2 demo_learn demo_repr refusal_403
                  (post "abc123" (note_body (of_ascii "abc"))) empty_world
                  (of_ascii "abc")
                  ltac:(lia) (demo_authorized _) (demo_note_of _ _))).
  apply passes_validation_str. split; [simpl; lia | vm_compute; reflexivity].
Defined.

Lemma C5_witness :
  exists text pred p,
    demo_learn (log EvJson empty_world) text = Ok pred /\
    nth_error (pred_probs pred) (pred_index pred) = Some p /\
    demo_label = pred_label pred /\
    demo_score = float_of_fixed4 (format_4f p) /\
    nearest_4dp p demo_score /\
    (in_unit_interval p -> in_unit_interval demo_score).
Proof.
  apply (C5_score_is_probability_rounded
           demo_tokens true 3000 demo_learn demo_repr refusal_403
           (post "abc123" (note_body demo_note)) empty_world
           (snd (app demo_tokens true 3000 demo_learn demo_repr refusal_403
                   (post "abc123" (note_body demo_note)) empty_world))
           200).
  vm_compute. reflexivity.
Defined.


Lemma C7_witness :
  authorized demo_tokens (post "abc123" (note_body demo_note)) /\
  exists note,
    note_of (post "abc123" (note_body demo_note)) note /\
    truthy note = true /\
    (exists n, len note = Ok n /\ 3 <= n) /\
    is_invisible note = Ok false.
Proof.
  apply (C7_prediction_only_after_validation
           demo_tokens true 3000 demo_learn demo_repr refusal_403
           (post "abc123" (note_body demo_note)) empty_world).
  right. exists 200, demo_label, demo_score.
  vm_compute. reflexivity.
Defined.

(** A body with another field only. *)
Lemma C8_witness :
  py_get text_body (of_ascii "note") (VStr []) = Ok (VStr []) /\
  predict_endpoint_try true 3000 demo_learn demo_repr
    (post "abc123" text_body) empty_world =
  (Raise (HTTPException 400 "Note is required"), log EvJson empty_world) /\
  forall r0,
    req_json r0 = Ok (note_body []) ->
    predict_endpoint_try true 3000 demo_learn demo_repr r0 empty_world =
    predict_endpoint_try true 3000 demo_learn demo_repr
      (post "abc123" text_body) empty_world /\
    predict_endpoint true 3000 demo_learn demo_repr r0 empty_world =
    predict_endpoint true 3000 demo_learn demo_repr
      (post "abc123" text_body) empty_world.
Proof.
  apply (C8_absent_note_is_empty_note true 3000 demo_learn demo_repr
           (post "abc123" text_body) empty_world
           [(of_ascii "text", VStr demo_note)]).
  - reflexivity.
  - vm_compute. reflexivity.
Defined.

Lemma C9_witness :
  fst (predict 3000 demo_learn (VStr demo_note) empty_world) =
  fst (predict 3000 demo_learn (VStr demo_note) readonly_world).
Proof.
  apply (C9_predict_repeatable 3000 demo_learn (VStr demo_note)
           empty_world readonly_world).
  intros w1 w2 x. reflexivity.
Defined.

(** Without the assumption the scores can differ: [moody_learn] looks at
    the trace. *)
Example moody_learn_not_repeatable :
  fst (predict 3000 moody_learn (VStr demo_note) empty_world) <>
  fst (predict 3000 moody_learn (VStr demo_note) (log EvJson empty_world)).
Proof. vm_compute. discriminate. Qed.

(** With a maximum of five characters the classifier receives ["Great"],
    and the record file the whole note. *)
Lemma C10_witness :
  record_file
    (snd (app demo_tokens true 5 demo_learn demo_repr refusal_403
            (post "abc123" (note_body demo_note)) empty_world)) =
  record_file empty_world ++
  demo_note ++ [TAB] ++ demo_repr (VFloat demo_score) ++ [NEWLINE] /\
  model_inputs
    (trace (snd (app demo_tokens true 5 demo_learn demo_repr refusal_403
                   (post "abc123" (note_body demo_note)) empty_world))) =
  model_inputs (trace empty_world) ++ [VStr (slice_to demo_note 5)] /\
  (List.length (slice_to demo_note 5) < List.length demo_note)%nat.
Proof.
  apply (C10_record_keeps_whole_note
           demo_tokens true 5 demo_learn demo_repr refusal_403
           (post "abc123" (note_body demo_note)) empty_world
           (log (EvPredict (VStr (of_ascii "Great"))) (log EvJson empty_world))
           demo_note demo_label demo_score
           (demo_authorized _) (demo_note_of _ _) demo_note_valid).
  - vm_compute. reflexivity.
  - vm_compute. reflexivity.
  - reflexivity.
  - reflexivity.
Defined.

(** * Start-up *)

(** X15. The server only comes up with a model path and tokens that are
    set and not empty, and with the model loaded from that path; nothing is
    printed on the way. In particular no server runs with an empty list of
    tokens. *)
Theorem X15_serving_needs_path_tokens_and_model
    {L : Type} (load_learner : pyval -> result L) (learner_truthy : L -> bool)
    (loaded : result pyval) (s : settings) (l : L) (events : list boot_event) :
  startup load_learner learner_truthy loaded = (Serving s l, events) ->
  exists config,
    loaded = Ok config /\
    read_settings config = Ok s /\
    truthy (cfg_model_path s) = true /\
    truthy (cfg_tokens s) = true /\
    load_learner (cfg_model_path s) = Ok l /\
    learner_truthy l = true /\
    events = [BootLoadLearner (cfg_model_path s)].
Proof.
  unfold startup, load_model.
  destruct loaded as [config|e]; [|discriminate].
  destruct (read_settings config) as [s0|e] eqn:Hs; [|discriminate].
  destruct (truthy (cfg_model_path s0)) eqn:Hp; [|discriminate].
  destruct (truthy (cfg_tokens s0)) eqn:Ht; [|discriminate].
  cbn [negb orb].
  destruct (load_learner (cfg_model_path s0)) as [l0|e] eqn:Hl; [|discriminate].
  destruct (learner_truthy l0) eqn:Hb; [|discriminate].
  cbn [negb]. intros H. inversion H; subst.
  exists config. repeat split; assumption || reflexivity.
Qed.

(** X16. When the configuration has no model path or no tokens, or has an
    empty or null one, start-up prints the error "Model path or tokens
    missing in config." and exits with code 1, before any attempt to load
    the model. *)
Theorem X16_missing_path_or_tokens_exits
    {L : Type} (load_learner : pyval -> result L) (learner_truthy : L -> bool)
    (items : list (pystr * pyval)) :
  (forall v, assoc (of_ascii "model_path") items = Some v -> truthy v = false) \/
  (forall v, assoc (of_ascii "tokens") items = Some v -> truthy v = false) ->
  startup load_learner learner_truthy (Ok (VDict items)) =
  (SystemExit 1, [BootStdoutError "Model path or tokens missing in config."]).
Proof.
  intros H. unfold startup, read_settings. cbn [py_get cfg_model_path cfg_tokens].
  destruct H as [H | H].
  - destruct (assoc (of_ascii "model_path") items) as [v|].
    + now rewrite (H v eq_refl).
    + reflexivity.
  - destruct (assoc (of_ascii "tokens") items) as [v|].
    + rewrite (H v eq_refl). cbn [negb]. now rewrite orb_true_r.
    + cbn [truthy List.length Nat.eqb negb]. now rewrite orb_true_r.
Qed.

(** X17. A failure of [load_learner] does not escape [load_model]: it is
    reported on the error stream, after which start-up prints "Model loading
    failed at startup." and exits with code 1. *)
Theorem X17_model_load_failure_exits
    {L : Type} (load_learner : pyval -> result L) (learner_truthy : L -> bool)
    (config : pyval) (s : settings) (e : exn) :
  read_settings config = Ok s ->
  truthy (cfg_model_path s) = true ->
  truthy (cfg_tokens s) = true ->
  load_learner (cfg_model_path s) = Raise e ->
  startup load_learner learner_truthy (Ok config) =
  (SystemExit 1,
   [BootLoadLearner (cfg_model_path s); BootStderr e;
    BootStdoutError "Model loading failed at startup."]).
Proof.
  intros Hs Hp Ht He. unfold startup, load_model.
  rewrite Hs, Hp, Ht, He. reflexivity.
Qed.

(** X18. A configuration file that does not hold a mapping -- an empty
    file, a list, a scalar -- ends start-up with an [AttributeError] that
    nothing catches, at the first [config.get]; neither of the two error
    messages is printed. *)
Theorem X18_config_not_a_mapping_is_uncaught
    {L : Type} (load_learner : pyval -> result L) (learner_truthy : L -> bool)
    (config : pyval) :
  match config with VDict _ => False | _ => True end ->
  startup load_learner learner_truthy (Ok config) =
  (Uncaught AttributeError, []).
Proof.
  intros H. destruct config; try reflexivity. contradiction.
Qed.

(** * The further properties on the concrete installation *)

Lemma demo_value_note_of (token : string) (v : pyval) :
  note_of (post token (value_body v)) v.
Proof.
  exists (value_body v). split; reflexivity.
Qed.

Lemma list_note_valid : passes_validation (VList list_note).
Proof.
  split; [reflexivity|]. split; [|vm_compute; reflexivity].
  exists 4. split; [reflexivity | lia].
Qed.

Lemma dict_note_valid : passes_validation (VDict dict_note).
Proof.
  split; [reflexivity|]. split; [|vm_compute; reflexivity].
  exists 3. split; [reflexivity | lia].
Qed.

Lemma X3_witness :
  app demo_tokens true 3000 failing_learn demo_repr refusal_403
    (post "abc123" (note_body demo_note)) empty_world =
  (Ok {| status_code := 500; content := ErrorBody (External "out of memory") |},
   log (EvPredict (VStr demo_note)) (log EvJson empty_world)).
Proof.
  apply (X3_classifier_failure_answered_500
           demo_tokens true 3000 failing_learn demo_repr refusal_403
           (post "abc123" (note_body demo_note)) empty_world
           (VStr demo_note) (VStr demo_note) (External "out of memory")
           (demo_authorized _) (demo_note_of _ _) demo_note_valid).
  - vm_compute. reflexivity.
  - reflexivity.
Defined.

Lemma X4_witness :
  app demo_tokens true 3000 stray_learn demo_repr refusal_403
    (post "abc123" (note_body demo_note)) empty_world =
  (Ok {| status_code := 500; content := ErrorBody IndexError |},
   log (EvPredict (VStr demo_note)) (log EvJson empty_world)).
Proof.
  apply (X4_index_out_of_range_answered_500
           demo_tokens true 3000 stray_learn demo_repr refusal_403
           (post "abc123" (note_body demo_note)) empty_world
           (VStr demo_note) (VStr demo_note)
           {| pred_label := demo_label;
              pred_index := 2;
              pred_probs := [Finite (Qmake 1 4); Finite (Qmake 3 4)] |}
           (demo_authorized _) (demo_note_of _ _) demo_note_valid).
  - vm_compute. reflexivity.
  - reflexivity.
  - simpl. lia.
Defined.

Lemma X5_witness :
  fst (app demo_tokens true 3000 nan_learn demo_repr refusal_403
         (post "abc123" (note_body demo_note)) empty_world) =
  Ok {| status_code := 500; content := ErrorBody ValueError |} /\
  record_file
    (snd (app demo_tokens true 3000 nan_learn demo_repr refusal_403
            (post "abc123" (note_body demo_note)) empty_world)) =
  record_file empty_world ++
  format_value demo_repr (VStr demo_note) ++
  [TAB] ++ demo_repr (VFloat NaN) ++ [NEWLINE].
Proof.
  apply (X5_score_not_finite_recorded_then_500
           demo_tokens true 3000 nan_learn demo_repr refusal_403
           (post "abc123" (note_body demo_note)) empty_world
           (VStr demo_note) (VStr demo_note)
           {| pred_label := demo_label; pred_index := 0; pred_probs := [NaN] |}
           NaN
           (demo_authorized _) (demo_note_of _ _) demo_note_valid).
  - vm_compute. reflexivity.
  - reflexivity.
  - reflexivity.
  - reflexivity.
  - reflexivity.
  - reflexivity.
Defined.

(** The note 12345, a number. *)
Lemma X6_witness :
  app demo_tokens true 3000 demo_learn demo_repr refusal_403
    (post "abc123" (value_body (VInt 12345))) empty_world =
  (Ok {| status_code := 500; content := ErrorBody TypeError |},
   log EvJson empty_world).
Proof.
  apply (X6_note_without_length
           demo_tokens true 3000 demo_learn demo_repr refusal_403
           (post "abc123" (value_body (VInt 12345))) empty_world (VInt 12345)
           (demo_authorized _) (demo_value_note_of _ _) I).
Defined.

(** With a maximum of two, the list of four strings reaches the classifier
    as the list of its first two. *)
Lemma X7_witness :
  model_inputs
    (trace (snd (app demo_tokens true 2 demo_learn demo_repr refusal_403
                   (post "abc123" (value_body (VList list_note)))
                   empty_world))) =
  model_inputs (trace empty_world) ++
  [VList [VStr (of_ascii "a"); VStr (of_ascii "b")]].
Proof.
  apply (X7_list_note_reaches_classifier
           demo_tokens true 2 demo_learn demo_repr refusal_403
           (post "abc123" (value_body (VList list_note))) empty_world list_note
           ltac:(lia) (demo_authorized _) (demo_value_note_of _ _)
           list_note_valid).
Defined.

Lemma X8_witness :
  app demo_tokens true 2 demo_learn demo_repr refusal_403
    (post "abc123" (value_body (VDict dict_note))) empty_world =
  (Ok {| status_code := 500; content := ErrorBody TypeError |},
   log EvJson empty_world).
Proof.
  apply (X8_long_dict_note_answered_500
           demo_tokens true 2 demo_learn demo_repr refusal_403
           (post "abc123" (value_body (VDict dict_note))) empty_world dict_note
           (demo_authorized _) (demo_value_note_of _ _) dict_note_valid).
  simpl. lia.
Defined.

Lemma X9_witness :
  exists t rest,
    validate_content_length 5 (VStr demo_note) = Ok (VStr t) /\
    demo_note = t ++ rest /\
    List.length t = Nat.min (List.length demo_note) (Z.to_nat 5) /\
    validate_content_length 5 (VStr t) = Ok (VStr t).
Proof.
  apply (X9_truncation_keeps_a_prefix 5 demo_note). lia.
Defined.

(** A maximum of -1: ["abcd"] loses its last character. *)
Lemma X10_witness :
  validate_content_length (-1) (VStr (of_ascii "abcd")) =
  Ok (VStr (firstn (List.length (of_ascii "abcd") - Z.to_nat (- -1))
              (of_ascii "abcd"))) /\
  (of_ascii "abcd" <> [] ->
   validate_content_length (-1) (VStr (of_ascii "abcd")) <>
   Ok (VStr (of_ascii "abcd"))).
Proof.
  apply (X10_negative_maximum_drops_the_tail (-1) (of_ascii "abcd")). lia.
Defined.

(** Three tabs and ["abc"] with a maximum of three. *)
Lemma X11_witness :
  model_inputs
    (trace (snd (app demo_tokens true 3 demo_learn demo_repr refusal_403
                   (post "abc123" (note_body ([9; 9; 9]%N ++ of_ascii "abc")))
                   empty_world))) =
  model_inputs (trace empty_world) ++ [VStr [9; 9; 9]%N] /\
  is_invisible (VStr [9; 9; 9]%N) = Ok true.
Proof.
  apply (X11_invisible_prefix_reaches_classifier
           demo_tokens true 3 demo_learn demo_repr refusal_403
           (post "abc123" (note_body ([9; 9; 9]%N ++ of_ascii "abc")))
           empty_world [9; 9; 9]%N (of_ascii "abc")).
  - lia.
  - reflexivity.
  - vm_compute. reflexivity.
  - vm_compute. reflexivity.
  - simpl. lia.
  - apply demo_authorized.
  - apply demo_note_of.
Defined.

(** The probability 0.9234567 and its score 0.9235. *)
Lemma X13_witness :
  exists k,
    0 <= k <= 10000 /\
    format_4f (Finite demo_probability) = F4 k /\
    format_4f (float_of_fixed4 (format_4f (Finite demo_probability))) = F4 k /\
    float_of_fixed4
      (format_4f (float_of_fixed4 (format_4f (Finite demo_probability)))) =
    float_of_fixed4 (format_4f (Finite demo_probability)).
Proof.
  apply (X13_score_of_probability_is_stable (Finite demo_probability)).
  split; unfold Qle; simpl; lia.
Defined.

Lemma X14_witness :
  exists a b,
    float_of_fixed4 (format_4f (Finite (Qmake 1 3))) = Finite (Qmake a 10000) /\
    float_of_fixed4 (format_4f (Finite (Qmake 1 2))) = Finite (Qmake b 10000) /\
    a <= b.
Proof.
  apply (X14_rounding_is_monotone (Qmake 1 3) (Qmake 1 2)).
  unfold Qle. simpl. lia.
Defined.

Lemma X15_witness :
  exists config,
    Ok (config_with_model "model.pkl") = Ok config /\
    read_settings config = Ok (settings_with_model "model.pkl") /\
    truthy (cfg_model_path (settings_with_model "model.pkl")) = true /\
    truthy (cfg_tokens (settings_with_model "model.pkl")) = true /\
    demo_load_learner (cfg_model_path (settings_with_model "model.pkl")) =
    Ok tt /\
    (fun _ : unit => true) tt = true /\
    [BootLoadLearner (VStr (of_ascii "model.pkl"))] =
    [BootLoadLearner (cfg_model_path (settings_with_model "model.pkl"))].
Proof.
  apply (X15_serving_needs_path_tokens_and_model
           demo_load_learner (fun _ => true)
           (Ok (config_with_model "model.pkl"))
           (settings_with_model "model.pkl") tt
           [BootLoadLearner (VStr (of_ascii "model.pkl"))]).
  vm_compute. reflexivity.
Defined.

(** A configuration without tokens. *)
Lemma X16_witness :
  startup demo_load_learner (fun _ => true)
    (Ok (VDict [(of_ascii "model_path", VStr (of_ascii "model.pkl"))])) =
  (SystemExit 1, [BootStdoutError "Model path or tokens missing in config."]).
Proof.
  apply (X16_missing_path_or_tokens_exits demo_load_learner (fun _ => true)
           [(of_ascii "model_path", VStr (of_ascii "model.pkl"))]).
  right. intros v H. vm_compute in H. discriminate H.
Defined.

(** A model path at which there is no model. *)
Lemma X17_witness :
  startup demo_load_learner (fun _ => true)
    (Ok (config_with_model "lost.pkl")) =
  (SystemExit 1,
   [BootLoadLearner (cfg_model_path (settings_with_model "lost.pkl"));
    BootStderr (External "No such file or directory");
    BootStdoutError "Model loading failed at startup."]).
Proof.
  apply (X17_model_load_failure_exits demo_load_learner (fun _ => true)
           (config_with_model "lost.pkl") (settings_with_model "lost.pkl")
           (External "No such file or directory")).
  - reflexivity.
  - reflexivity.
  - reflexivity.
  - vm_compute. reflexivity.
Defined.

(** An empty configuration file, which is read as [None]. *)
Lemma X18_witness :
  startup demo_load_learner (fun _ => true) (Ok VNone) =
  (Uncaught AttributeError, []).
Proof.
  apply (X18_config_not_a_mapping_is_uncaught
           demo_load_learner (fun _ => true) VNone I).
Defined.

(** A body that is not UTF-8. *)
Lemma X19_witness :
  app demo_tokens true 3000 demo_learn demo_repr refusal_403
    (garbled "abc123" UnicodeDecodeError) empty_world =
  (Ok {| status_code := 500; content := ErrorBody UnicodeDecodeError |},
   log EvJson empty_world).
Proof.
  apply (X19_unusable_body_answered_500
           demo_tokens true 3000 demo_learn demo_repr refusal_403
           (garbled "abc123" UnicodeDecodeError) empty_world).
  - exists (of_ascii "abc123"). split; [reflexivity | now left].
  - exact I.
Defined.

(** Two zero-width spaces are too short before they are invisible. *)
Lemma X20_witness :
  app demo_tokens true 3000 demo_learn demo_repr refusal_403
    (post "abc123" (note_body [8203; 8203]%N)) empty_world =
  (Ok {| status_code := 500;
         content := ErrorBody (HTTPException 400 "Note is too short") |},
   log EvJson empty_world).
Proof.
  apply (X20_first_failed_check_decides
           demo_tokens true 3000 demo_learn demo_repr refusal_403
           (post "abc123" (note_body [8203; 8203]%N)) empty_world
           [8203; 8203]%N (demo_authorized _) (demo_note_of _ _)).
  intros H. apply passes_validation_str in H. destruct H as [H _].
  simpl in H. lia.
Defined.
